(** * rnzml: a shallow embedding of the renderer and its verified properties

    The Go package [rnzml] (file [rnzml.go]) converts a line-oriented markup
    into HTML.  [Render] scans its input line by line and hands paragraph
    lines to [renderLine], a rune-by-rune state machine.

    Go strings and byte slices are sequences of bytes: they are modelled by
    [string], whose characters are the 8-bit [ascii].  Runes and Go [int]s
    are modelled by [Z]; line numbers and byte offsets never get near the
    64-bit limit, so they carry no wrap-around.  The parts of the Go standard
    library the package calls ([unicode/utf8], [strings], [fmt], [bufio],
    [text/template], [html/template]) are modelled first, each in a module of
    its own; the package itself is the module [rnzml]. *)

From Stdlib Require Import ZArith List String Ascii Bool Lia DecimalString.
Import ListNotations.

Local Open Scope string_scope.
Local Open Scope Z_scope.

(** ** Bytes *)

Definition byte := ascii.

(** The numeric value of a byte. *)
Definition b2z (c : byte) : Z := Z.of_N (N_of_ascii c).

(** Go's conversion [byte(x)]: the low eight bits. *)
Definition z2b (z : Z) : byte := ascii_of_N (Z.to_N (z mod 256)).

(** Go's conversion [uint32(r)] of an [int32]. *)
Definition uint32 (z : Z) : Z := z mod 2 ^ 32.

(** Go's conversion to [int32] (two's complement wrap-around). *)
Definition int32 (z : Z) : Z := (z + 2 ^ 31) mod 2 ^ 32 - 2 ^ 31.

Definition len (s : string) : Z := Z.of_nat (String.length s).

Definition dquote : string := String "034"%char EmptyString.
Definition newline_char : byte := "010"%char.
Definition cr_char : byte := "013"%char.

(** Go's [error] values are observed through their message only. *)
Definition error := string.

(** ** unicode/utf8 *)

Module utf8.

Definition rune := Z.

Definition RuneError : rune := 0xFFFD.
Definition RuneSelf : Z := 0x80.
Definition MaxRune : rune := 0x10FFFF.

Definition surrogateMin : Z := 0xD800.
Definition surrogateMax : Z := 0xDFFF.

Definition tx : Z := 0x80.
Definition t2 : Z := 0xC0.
Definition t3 : Z := 0xE0.
Definition t4 : Z := 0xF0.

Definition maskx : Z := 0x3F.
Definition mask2 : Z := 0x1F.
Definition mask3 : Z := 0x0F.
Definition mask4 : Z := 0x07.

Definition rune1Max : Z := 0x7F.
Definition rune2Max : Z := 0x7FF.
Definition rune3Max : Z := 0xFFFF.

Definition locb : Z := 0x80.
Definition hicb : Z := 0xBF.

(** Entries of the [first] table: the low three bits give the sequence
    length, the high four bits index [acceptRanges]. *)
Definition xx : Z := 0xF1.
Definition as_ : Z := 0xF0.
Definition s1 : Z := 0x02.
Definition s2 : Z := 0x13.
Definition s3 : Z := 0x03.
Definition s4 : Z := 0x23.
Definition s5 : Z := 0x34.
Definition s6 : Z := 0x04.
Definition s7 : Z := 0x44.

(** The 256-entry table [first], written by ranges of the first byte. *)
Definition first (b : Z) : Z :=
  if b <? 0x80 then as_
  else if b <? 0xC2 then xx
  else if b <? 0xE0 then s1
  else if b =? 0xE0 then s2
  else if b <? 0xED then s3
  else if b =? 0xED then s4
  else if b <? 0xF0 then s3
  else if b =? 0xF0 then s5
  else if b <? 0xF4 then s6
  else if b =? 0xF4 then s7
  else xx.

Record acceptRange := { lo : Z; hi : Z }.

Definition acceptRanges (i : Z) : acceptRange :=
  if i =? 0 then {| lo := locb; hi := hicb |}
  else if i =? 1 then {| lo := 0xA0; hi := hicb |}
  else if i =? 2 then {| lo := locb; hi := 0x9F |}
  else if i =? 3 then {| lo := 0x90; hi := hicb |}
  else if i =? 4 then {| lo := locb; hi := 0x8F |}
  else {| lo := 0; hi := 0 |}.

(** [DecodeRuneInString]: the first rune of [s] and its width in bytes.  An
    invalid or truncated sequence gives [(RuneError, 1)]. *)
Definition DecodeRuneInString (s : string) : rune * Z :=
  let n := len s in
  match s with
  | EmptyString => (RuneError, 0)
  | String c0 rest0 =>
    let s0 := b2z c0 in
    let x := first s0 in
    if as_ <=? x then
      let mask := Z.shiftr (int32 (Z.shiftl x 31)) 31 in
      (Z.lor (Z.land s0 (Z.lnot mask)) (Z.land RuneError mask), 1)
    else
      let sz := Z.land x 7 in
      let accept := acceptRanges (Z.shiftr x 4) in
      if n <? sz then (RuneError, 1)
      else
        match rest0 with
        | EmptyString => (RuneError, 1)
        | String c1 rest1 =>
          let s1 := b2z c1 in
          if (s1 <? lo accept) || (hi accept <? s1) then (RuneError, 1)
          else if sz <=? 2 then
            (Z.lor (Z.shiftl (Z.land s0 mask2) 6) (Z.land s1 maskx), 2)
          else
            match rest1 with
            | EmptyString => (RuneError, 1)
            | String c2 rest2 =>
              let s2 := b2z c2 in
              if (s2 <? locb) || (hicb <? s2) then (RuneError, 1)
              else if sz <=? 3 then
                (Z.lor (Z.lor (Z.shiftl (Z.land s0 mask3) 12)
                              (Z.shiftl (Z.land s1 maskx) 6))
                       (Z.land s2 maskx), 3)
              else
                match rest2 with
                | EmptyString => (RuneError, 1)
                | String c3 _ =>
                  let s3 := b2z c3 in
                  if (s3 <? locb) || (hicb <? s3) then (RuneError, 1)
                  else
                    (Z.lor (Z.lor (Z.lor (Z.shiftl (Z.land s0 mask4) 18)
                                         (Z.shiftl (Z.land s1 maskx) 12))
                                  (Z.shiftl (Z.land s2 maskx) 6))
                           (Z.land s3 maskx), 4)
                end
            end
        end
  end.

(** The loop [for n, r := range s]: the pairs of byte offset and rune, in
    order.  After a rune of width [k] the next [k - 1] bytes are skipped. *)
Fixpoint range_from (n : Z) (skip : nat) (s : string) : list (Z * rune) :=
  match s with
  | EmptyString => []
  | String _ s' =>
    match skip with
    | S k => range_from (n + 1) k s'
    | O =>
      let '(r, size) := DecodeRuneInString s in
      (n, r) :: range_from (n + 1) (Z.to_nat size - 1)%nat s'
    end
  end.

Definition range_string (s : string) : list (Z * rune) := range_from 0 0 s.

(** The bytes of the UTF-8 encoding of [r], as [EncodeRune] and [AppendRune]
    compute them; a rune out of range or a surrogate encodes as [RuneError]. *)
Definition encoding (r : rune) : list byte :=
  let i := uint32 r in
  if i <=? rune1Max then [z2b r]
  else if i <=? rune2Max then
    [z2b (Z.lor t2 (b2z (z2b (Z.shiftr r 6))));
     z2b (Z.lor tx (Z.land (b2z (z2b r)) maskx))]
  else if (i <? surrogateMin) || ((surrogateMax <? i) && (i <=? rune3Max)) then
    [z2b (Z.lor t3 (b2z (z2b (Z.shiftr r 12))));
     z2b (Z.lor tx (Z.land (b2z (z2b (Z.shiftr r 6))) maskx));
     z2b (Z.lor tx (Z.land (b2z (z2b r)) maskx))]
  else if (rune3Max <? i) && (i <=? MaxRune) then
    [z2b (Z.lor t4 (b2z (z2b (Z.shiftr r 18))));
     z2b (Z.lor tx (Z.land (b2z (z2b (Z.shiftr r 12))) maskx));
     z2b (Z.lor tx (Z.land (b2z (z2b (Z.shiftr r 6))) maskx));
     z2b (Z.lor tx (Z.land (b2z (z2b r)) maskx))]
  else ["239"%char; "191"%char; "189"%char].

(** Storing [bs] at the start of the slice [p]; [None] when [p] is shorter
    than [bs]. *)
Fixpoint store (p bs : list byte) {struct bs} : option (list byte) :=
  match bs, p with
  | [], _ => Some p
  | b :: bs', _ :: p' =>
    match store p' bs' with
    | Some q => Some (b :: q)
    | None => None
    end
  | _ :: _, [] => None
  end.

(** [EncodeRune p r] writes the encoding of [r] into the slice [p] and
    returns the number of bytes written.  The ASCII case stores [p[0]]; the
    other cases start with the bounds check [_ = p[k-1]], which panics with
    an index-out-of-range error [inr (index, length)] on a short slice. *)
Definition EncodeRune (p : list byte) (r : rune)
  : (list byte * Z) + (Z * Z) :=
  let bs := encoding r in
  match store p bs with
  | Some q => inl (q, Z.of_nat (List.length bs))
  | None => inr (Z.of_nat (List.length bs) - 1, Z.of_nat (List.length p))
  end.

(** [AppendRune], which [strings.Builder.WriteRune] uses. *)
Definition AppendRune (p : string) (r : rune) : string :=
  p ++ string_of_list_ascii (encoding r).

End utf8.


(** ** io.Writer *)

(** A writer holds a state of type [W]; [Write] consumes a byte slice and
    returns the new state and a possible error. *)
Class Writer (W : Type) := Write : W -> string -> W * option error.

(** [strings.Builder], the writer of the package's tests: [Write] appends
    and never fails. *)
Definition Builder := string.

#[export] Instance Builder_Writer : Writer Builder :=
  fun w p => (w ++ p, None).

(** ** fmt *)

Module fmt.

(** The verb [%d]. *)
Definition itoa (z : Z) : string := NilZero.string_of_int (Z.to_int z).

Definition hexdigit (d : Z) : byte :=
  if d <? 10 then z2b (b2z "0"%char + d) else z2b (b2z "a"%char + (d - 10)).

(** The verb [%02x] at a byte. *)
Definition hex02 (c : byte) : string :=
  String (hexdigit (b2z c / 16)) (String (hexdigit (b2z c mod 16)) EmptyString).

End fmt.

(** ** strings *)

Module strings.

(** [Cut s sep] for a one-byte separator: the text before and after the
    first [sep], or [None] when [s] does not contain it. *)
Fixpoint Cut (s : string) (sep : byte) : option (string * string) :=
  match s with
  | EmptyString => None
  | String c s' =>
    if Ascii.eqb c sep then Some (EmptyString, s')
    else
      match Cut s' sep with
      | Some (before, after) => Some (String c before, after)
      | None => None
      end
  end.

(** [Contains s sep] for a one-byte [sep]. *)
Fixpoint Contains (s : string) (sep : byte) : bool :=
  match s with
  | EmptyString => false
  | String c s' => Ascii.eqb c sep || Contains s' sep
  end.

(** [SplitN s sep n] for a one-byte separator and [n >= 0]: at most [n]
    substrings, the last one being the unsplit remainder. *)
Fixpoint SplitN (s : string) (sep : byte) (n : nat) : list string :=
  match n with
  | O => []
  | S O => [s]
  | S n' =>
    match Cut s sep with
    | None => [s]
    | Some (before, after) => before :: SplitN after sep n'
    end
  end.

(** [unicode.SimpleFold] on the orbits of the ASCII runes: a letter goes to
    its other case, except that [k] and [s] go on to the Kelvin sign and the
    long s, which close the orbit.  [EqualFold] reaches no other rune when
    one of its arguments is ASCII. *)
Definition SimpleFold (r : Z) : Z :=
  if (b2z "A"%char <=? r) && (r <=? b2z "Z"%char) then r + 32
  else if r =? b2z "k"%char then 0x212A
  else if r =? b2z "s"%char then 0x17F
  else if (b2z "a"%char <=? r) && (r <=? b2z "z"%char) then r - 32
  else if r =? 0x212A then b2z "K"%char
  else if r =? 0x17F then b2z "S"%char
  else r.

(** The loop [for r != sr && r < tr { r = SimpleFold(r) }]. *)
Fixpoint fold_until (fuel : nat) (sr tr r : Z) : Z :=
  match fuel with
  | O => r
  | S k =>
    if negb (r =? sr) && (r <? tr) then fold_until k sr tr (SimpleFold r)
    else r
  end.

Fixpoint drop (n : nat) (s : string) : string :=
  match n, s with
  | O, _ => s
  | S k, String _ s' => drop k s'
  | S _, EmptyString => EmptyString
  end.

(** [EqualFold s t]: the runes of [s] are compared with those of [t] under
    simple case folding.  (The byte loop that Go runs first on an ASCII
    prefix computes the same answer as this rune loop.) *)
Fixpoint EqualFold_runes (rs : list (Z * Z)) (t : string) : bool :=
  match rs with
  | [] => len t =? 0
  | (_, sr) :: rs' =>
    match t with
    | EmptyString => false
    | String c0 _ =>
      let '(tr, size) :=
        if b2z c0 <? utf8.RuneSelf then (b2z c0, 1)
        else utf8.DecodeRuneInString t in
      let t' := drop (Z.to_nat size) t in
      if tr =? sr then EqualFold_runes rs' t'
      else
        let '(sr, tr) := if tr <? sr then (tr, sr) else (sr, tr) in
        if tr <? utf8.RuneSelf then
          if (b2z "A"%char <=? sr) && (sr <=? b2z "Z"%char)
             && (tr =? sr + b2z "a"%char - b2z "A"%char)
          then EqualFold_runes rs' t'
          else false
        else
          let r := fold_until 4 sr tr (SimpleFold sr) in
          if r =? tr then EqualFold_runes rs' t' else false
    end
  end.

Definition EqualFold (s t : string) : bool :=
  EqualFold_runes (utf8.range_string s) t.

End strings.

(** ** bufio *)

Module bufio.

Definition MaxScanTokenSize : Z := 64 * 1024.

Definition ErrTooLong : error := "bufio.Scanner: token too long".

(** [dropCR] removes one trailing carriage return. *)
Fixpoint dropCR (data : string) : string :=
  match data with
  | EmptyString => EmptyString
  | String c EmptyString =>
    if Ascii.eqb c cr_char then EmptyString else data
  | String c rest => String c (dropCR rest)
  end.

(** A [Scanner] with the split function [ScanLines] over an in-memory
    reader: the lines it delivers, in order, and the value of [Err()] once
    [Scan] has returned false.  [cur] holds the bytes of the line being
    read.  A line is the text up to the next newline, or the non-empty rest
    of the input; it is delivered without its trailing carriage return.  The
    buffer grows to [MaxScanTokenSize] bytes, so a line of that many bytes or
    more stops the scan with [ErrTooLong]. *)
Fixpoint scan_from (cur : string) (input : string)
  : list string * option error :=
  match input with
  | EmptyString =>
    if len cur =? 0 then ([], None)
    else if MaxScanTokenSize <=? len cur then ([], Some ErrTooLong)
    else ([dropCR cur], None)
  | String c rest =>
    if Ascii.eqb c newline_char then
      if MaxScanTokenSize <=? len cur then ([], Some ErrTooLong)
      else
        let '(lines, err) := scan_from EmptyString rest in
        (dropCR cur :: lines, err)
    else scan_from (cur ++ String c EmptyString) rest
  end.

Definition ScanLines (input : string) : list string * option error :=
  scan_from EmptyString input.

End bufio.

(** ** text/template and html/template *)

Module template.

Section Escape.
Context {W : Type} `{Writer W}.

(** The replacement [HTMLEscape] writes for a byte, if any. *)
Definition html_entity (c : byte) : option string :=
  if Ascii.eqb c "000"%char then Some (string_of_list_ascii (utf8.encoding 0xFFFD))
  else if Ascii.eqb c "034"%char then Some "&#34;"
  else if Ascii.eqb c "'"%char then Some "&#39;"
  else if Ascii.eqb c "&"%char then Some "&amp;"
  else if Ascii.eqb c "<"%char then Some "&lt;"
  else if Ascii.eqb c ">"%char then Some "&gt;"
  else None.

(** [HTMLEscape w b]: the bytes of [b] are written to [w] with the special
    bytes replaced.  [pending] is the slice [b[last:i]] not yet written.
    The results of [Write] are dropped, as in the library. *)
Fixpoint HTMLEscape_from (pending : string) (b : string) (w : W) : W :=
  match b with
  | EmptyString => fst (Write w pending)
  | String c b' =>
    match html_entity c with
    | None => HTMLEscape_from (pending ++ String c EmptyString) b' w
    | Some html =>
      let w := fst (Write w pending) in
      let w := fst (Write w html) in
      HTMLEscape_from EmptyString b' w
    end
  end.

Definition HTMLEscape (w : W) (b : string) : W :=
  HTMLEscape_from EmptyString b w.

End Escape.

(** *** The escapers html/template inserts in the link template *)

Definition filterFailsafe : string := "ZgotmplZ".

Definition isSafeURL (s : string) : bool :=
  match strings.Cut s ":"%char with
  | Some (protocol, _) =>
    if negb (strings.Contains protocol "/"%char) then
      if negb (strings.EqualFold protocol "http")
         && negb (strings.EqualFold protocol "https")
         && negb (strings.EqualFold protocol "mailto")
      then false
      else true
    else true
  | None => true
  end.

Definition urlFilter (s : string) : string :=
  if negb (isSafeURL s) then "#" ++ filterFailsafe else s.

Definition isHex (c : byte) : bool :=
  let z := b2z c in
  ((b2z "0"%char <=? z) && (z <=? b2z "9"%char))
  || ((b2z "a"%char <=? z) && (z <=? b2z "f"%char))
  || ((b2z "A"%char <=? z) && (z <=? b2z "F"%char)).

(** Whether [processURLOnto], normalising, leaves the byte as it is. *)
Definition url_keeps (c : byte) (rest : string) : bool :=
  let z := b2z c in
  if existsb (Ascii.eqb c)
       ["!"; "#"; "$"; "&"; "*"; "+"; ","; "/"; ":"; ";"; "="; "?"; "@";
        "["; "]"]%char
  then true
  else if existsb (Ascii.eqb c) ["-"; "."; "_"; "~"]%char then true
  else if Ascii.eqb c "%"%char then
    match rest with
    | String h1 (String h2 _) => isHex h1 && isHex h2
    | _ => false
    end
  else
    ((b2z "a"%char <=? z) && (z <=? b2z "z"%char))
    || ((b2z "A"%char <=? z) && (z <=? b2z "Z"%char))
    || ((b2z "0"%char <=? z) && (z <=? b2z "9"%char)).

(** [urlNormalizer]: every byte that is not kept is percent-encoded with
    lower-case hexadecimal digits. *)
Fixpoint urlNormalizer (s : string) : string :=
  match s with
  | EmptyString => EmptyString
  | String c rest =>
    if url_keeps c rest then String c (urlNormalizer rest)
    else "%" ++ fmt.hex02 c ++ urlNormalizer rest
  end.

(** [htmlReplacementTable]. *)
Definition htmlReplacement (c : byte) : option string :=
  if Ascii.eqb c "000"%char then Some (string_of_list_ascii (utf8.encoding 0xFFFD))
  else if Ascii.eqb c "034"%char then Some "&#34;"
  else if Ascii.eqb c "&"%char then Some "&amp;"
  else if Ascii.eqb c "'"%char then Some "&#39;"
  else if Ascii.eqb c "+"%char then Some "&#43;"
  else if Ascii.eqb c "<"%char then Some "&lt;"
  else if Ascii.eqb c ">"%char then Some "&gt;"
  else None.

(** [htmlReplacer s htmlReplacementTable true].  The library decodes [s]
    rune by rune; only runes below 63 have a table entry, and those are
    single bytes, so the replacement acts byte by byte. *)
Fixpoint htmlReplacer (s : string) : string :=
  match s with
  | EmptyString => EmptyString
  | String c rest =>
    match htmlReplacement c with
    | Some repl => repl ++ htmlReplacer rest
    | None => String c (htmlReplacer rest)
    end
  end.

Definition attrEscaper (s : string) : string := htmlReplacer s.
Definition htmlEscaper (s : string) : string := htmlReplacer s.

End template.


(** ** Computations that write, fail or panic *)

(** A Go call ends by returning a value, by returning an error, or by a
    run-time panic. *)
Inductive result (A : Type) : Type :=
| Ret (a : A)
| Err (e : error)
| Panic (msg : string).

Arguments Ret {A} a.
Arguments Err {A} e.
Arguments Panic {A} msg.

(** A computation over the writer [out]. *)
Definition M (W A : Type) : Type := W -> W * result A.

Definition ret {W A} (a : A) : M W A := fun w => (w, Ret a).

Definition fail {W A} (e : error) : M W A := fun w => (w, Err e).

Definition panic {W A} (msg : string) : M W A := fun w => (w, Panic msg).

Definition bind {W A B} (m : M W A) (f : A -> M W B) : M W B :=
  fun w =>
    match m w with
    | (w', Ret a) => f a w'
    | (w', Err e) => (w', Err e)
    | (w', Panic msg) => (w', Panic msg)
    end.

Notation "x <- m ;; k" := (bind m (fun x => k))
  (at level 61, m at next level, right associativity).
Notation "m ;;; k" := (bind m (fun _ => k))
  (at level 61, right associativity).

(** [if _, err := out.Write(p); err != nil { return err }]. *)
Definition write_or_return {W} `{Writer W} (p : string) : M W unit :=
  fun w =>
    match Write w p with
    | (w', None) => (w', Ret tt)
    | (w', Some err) => (w', Err err)
    end.

(** The panic of an index expression out of range. *)
Definition index_out_of_range (i n : Z) : string :=
  "runtime error: index out of range [" ++ fmt.itoa i ++ "] with length "
  ++ fmt.itoa n.

(** ** The package *)

Module rnzml.

Import utf8.

Definition codeBlockStartString : string := "<pre><code>".
Definition codeBlockEndString : string := "</code></pre>" ++ String newline_char "".
Definition textBlockStartString : string := "<p>".
Definition textBlockEndString : string :=
  String newline_char "</p>" ++ String newline_char "".
Definition boldTextStartString : string := "<strong>".
Definition boldTextEndString : string := "</strong>".
Definition codeTextStartString : string := "<code>".
Definition codeTextEndString : string := "</code>".
Definition newlineString : string := String newline_char "".

Record link := { URL : string; Label : string }.

Section Package.
Context {W : Type} `{Writer W}.

(** [linkTemplate.Execute(out, l)] for the template
    [<a href="{{.URL}}">{{.Label}}</a>].  html/template escapes the first
    action, inside a double-quoted URL attribute, with the URL filter, the
    URL normaliser and the attribute escaper, and the second, in element
    content, with the HTML escaper.  The text and the two values are written
    one after the other; the first failed write ends the execution with its
    error. *)
Definition linkTemplate_Execute (l : link) : M W unit :=
  write_or_return ("<a href=" ++ dquote) ;;;
  write_or_return
    (template.attrEscaper (template.urlNormalizer (template.urlFilter (URL l)))) ;;;
  write_or_return (dquote ++ ">") ;;;
  write_or_return (template.htmlEscaper (Label l)) ;;;
  write_or_return "</a>".

Record Renderer := {
  codeBlockStart : string;
  codeBlockEnd : string;
  textBlockStart : string;
  textBlockEnd : string;
  boldTextStart : string;
  boldTextEnd : string;
  codeTextStart : string;
  codeTextEnd : string;
  newline : string
}.

Definition NewRenderer : Renderer := {|
  codeBlockStart := "<pre><code>";
  codeBlockEnd := "</code></pre>" ++ String newline_char "";
  textBlockStart := "<p>";
  textBlockEnd := String newline_char "</p>" ++ String newline_char "";
  boldTextStart := "<strong>";
  boldTextEnd := "</strong>";
  codeTextStart := "<code>";
  codeTextEnd := "</code>";
  newline := String newline_char ""
|}.

(** The local variables of [renderLine] that live across iterations. *)
Record locals := {
  runeBuffer : list byte;
  lastEscape : Z;
  lastBold : Z;
  lastCode : Z;
  lastLink : Z;
  linkContent : string
}.

Definition set_runeBuffer (b : list byte) (st : locals) : locals :=
  {| runeBuffer := b; lastEscape := lastEscape st; lastBold := lastBold st;
     lastCode := lastCode st; lastLink := lastLink st;
     linkContent := linkContent st |}.

Definition set_lastEscape (n : Z) (st : locals) : locals :=
  {| runeBuffer := runeBuffer st; lastEscape := n; lastBold := lastBold st;
     lastCode := lastCode st; lastLink := lastLink st;
     linkContent := linkContent st |}.

Definition set_lastBold (n : Z) (st : locals) : locals :=
  {| runeBuffer := runeBuffer st; lastEscape := lastEscape st; lastBold := n;
     lastCode := lastCode st; lastLink := lastLink st;
     linkContent := linkContent st |}.

Definition set_lastCode (n : Z) (st : locals) : locals :=
  {| runeBuffer := runeBuffer st; lastEscape := lastEscape st;
     lastBold := lastBold st; lastCode := n; lastLink := lastLink st;
     linkContent := linkContent st |}.

Definition set_lastLink (n : Z) (st : locals) : locals :=
  {| runeBuffer := runeBuffer st; lastEscape := lastEscape st;
     lastBold := lastBold st; lastCode := lastCode st; lastLink := n;
     linkContent := linkContent st |}.

Definition set_linkContent (s : string) (st : locals) : locals :=
  {| runeBuffer := runeBuffer st; lastEscape := lastEscape st;
     lastBold := lastBold st; lastCode := lastCode st;
     lastLink := lastLink st; linkContent := s |}.

(** The locals at the head of the loop.  [[]byte{4}] is the slice literal
    with the single element 4. *)
Definition initial : locals := {|
  runeBuffer := ["004"%char];
  lastEscape := -1;
  lastBold := -1;
  lastCode := -1;
  lastLink := -1;
  linkContent := ""
|}.

(** The closure [writeEscapedRune]: it encodes [r] into the shared
    [runeBuffer] and escapes the encoded bytes to [out]. *)
Definition writeEscapedRune (r : rune) (st : locals) : M W locals :=
  match EncodeRune (runeBuffer st) r with
  | inr (i, n) => panic (index_out_of_range i n)
  | inl (buf, byteCount) =>
    fun out =>
      (template.HTMLEscape out
         (string_of_list_ascii (firstn (Z.to_nat byteCount) buf)),
       Ret (set_runeBuffer buf st))
  end.

Definition malformed_link (content : string) : error :=
  "Links must have a URL and a Label separated by a space. Instead found: "
  ++ content.

(** The body of the loop [for n, r := range line]. *)
Definition step (re : Renderer) (n : Z) (r : rune) (st : locals)
  : M W locals :=
  if lastEscape st >? -1 then
    st <- (if lastLink st >? -1
           then ret (set_linkContent (AppendRune (linkContent st) r) st)
           else writeEscapedRune r st) ;;
    ret (set_lastEscape (-1) st)
  else if lastLink st >? -1 then
    if r =? b2z "\"%char then ret (set_lastEscape n st)
    else if r =? b2z "]"%char then
      let st := set_lastLink (-1) st in
      let parts := strings.SplitN (linkContent st) " "%char 2 in
      match parts with
      | [part0; part1] =>
        linkTemplate_Execute {| URL := part0; Label := part1 |} ;;;
        ret (set_linkContent "" st)
      | _ => fail (malformed_link (linkContent st))
      end
    else ret (set_linkContent (AppendRune (linkContent st) r) st)
  else if lastCode st >? -1 then
    if r =? b2z "\"%char then ret (set_lastEscape n st)
    else if r =? b2z "`"%char then
      write_or_return (codeTextEnd re) ;;;
      ret (set_lastCode (-1) st)
    else writeEscapedRune r st
  else
    if r =? b2z "\"%char then ret (set_lastEscape n st)
    else if r =? b2z "*"%char then
      if lastBold st <? 0 then
        write_or_return (boldTextStart re) ;;;
        ret (set_lastBold n st)
      else
        write_or_return (boldTextEnd re) ;;;
        ret (set_lastBold (-1) st)
    else if r =? b2z "`"%char then
      write_or_return (codeTextStart re) ;;;
      ret (set_lastCode n st)
    else if r =? b2z "["%char then ret (set_lastLink n st)
    else writeEscapedRune r st.

(** The loop over the runes of the line. *)
Fixpoint run (re : Renderer) (rs : list (Z * rune)) (st : locals)
  : M W locals :=
  match rs with
  | [] => ret st
  | (n, r) :: rs' => st' <- step re n r st ;; run re rs' st'
  end.

(** The checks after the loop. *)
Definition finish (st : locals) : M W unit :=
  if lastBold st >? -1 then
    fail ("unclosed bold text (*) at position: " ++ fmt.itoa (lastBold st))
  else if lastCode st >? -1 then
    fail ("unclosed code text (`) at position: " ++ fmt.itoa (lastCode st))
  else if lastLink st >? -1 then
    fail ("unclosed link ([) at position: " ++ fmt.itoa (lastLink st))
  else ret tt.

(** [renderLine] renders a single line in a text block. *)
Definition renderLine (re : Renderer) (line : string) : M W unit :=
  st <- run re (range_string line) initial ;;
  finish st.

Definition fence : string := "```".

(** The body of the loop [for scanner.Scan()], after [lineCount++]; it
    returns the new value of [codeBlockStartLine]. *)
Definition scan_step (re : Renderer) (line : string)
    (lineCount codeBlockStartLine : Z) : M W Z :=
  if String.eqb line fence then
    if codeBlockStartLine =? -1 then
      write_or_return (codeBlockStart re) ;;;
      ret lineCount
    else
      write_or_return (codeBlockEnd re) ;;;
      ret (-1)
  else
    if (codeBlockStartLine =? -1) && negb (String.eqb line "") then
      write_or_return (textBlockStart re) ;;;
      (fun out =>
         match renderLine re line out with
         | (out', Err err) =>
           (out', Err ("line " ++ fmt.itoa lineCount ++ ": " ++ err))
         | other => other
         end) ;;;
      write_or_return (textBlockEnd re) ;;;
      ret codeBlockStartLine
    else
      (fun out => (template.HTMLEscape out line, Ret tt)) ;;;
      write_or_return (newline re) ;;;
      ret codeBlockStartLine.

(** The loop over the lines the scanner delivers; it returns the final
    [codeBlockStartLine]. *)
Fixpoint scan_loop (re : Renderer) (lines : list string)
    (lineCount codeBlockStartLine : Z) : M W Z :=
  match lines with
  | [] => ret codeBlockStartLine
  | line :: lines' =>
    let lineCount := lineCount + 1 in
    k <- scan_step re line lineCount codeBlockStartLine ;;
    scan_loop re lines' lineCount k
  end.

Definition unclosed_code_block (k : Z) : error :=
  "unclosed code block (```) on line: " ++ fmt.itoa k.

(** [Render] iterates over [input] line by line and renders either a text
    block or a code block. *)
Definition Render (re : Renderer) (input : string) : M W unit :=
  let '(lines, scanErr) := bufio.ScanLines input in
  codeBlockStartLine <- scan_loop re lines 0 (-1) ;;
  match scanErr with
  | Some err => fail err
  | None =>
    if negb (codeBlockStartLine =? -1)
    then fail (unclosed_code_block codeBlockStartLine)
    else ret tt
  end.

End Package.

End rnzml.


(** * Properties *)

Import utf8 rnzml.

(** ** Abbreviations and test inputs *)

Definition nl : string := String newline_char "".

(** The line [é]: the two bytes of U+00E9. *)
Definition e_acute : string := String "195"%char (String "169"%char "").

(** What the link template writes for a URL and a label. *)
Definition link_html (url label : string) : string :=
  "<a href=" ++ dquote
  ++ template.attrEscaper (template.urlNormalizer (template.urlFilter url))
  ++ dquote ++ ">" ++ template.htmlEscaper label ++ "</a>".

(** A state inside the link [[1 2 3], before its closing bracket. *)
Definition in_link_1_2_3 : locals :=
  set_linkContent "1 2 3" (set_lastLink 0 initial).

(** At most one of code-open and link-open. *)
Definition exclusive (st : locals) : Prop :=
  ~ (lastCode st > -1 /\ lastLink st > -1).

(** The state after the three runes of [a `], inside inline code. *)
Definition in_code_at_2 : locals :=
  set_lastCode 2 (set_runeBuffer [" "%char] initial).

(** The line of a backslash and [é]. *)
Definition escaped_e_acute : string := "\" ++ e_acute.

(** The block mode held in [codeBlockStartLine]: inside a code fence when
    the variable is not -1. *)
Definition InCodeFence (codeBlockStartLine : Z) : bool :=
  negb (codeBlockStartLine =? -1).

(** The number of lines in a list, as a Go [int]. *)
Definition lines_before (lines : list string) : Z :=
  Z.of_nat (List.length lines).

(** Whether every byte of a string passes a test. *)
Fixpoint all_bytes (p : byte -> bool) (s : string) : bool :=
  match s with
  | EmptyString => true
  | String c s' => p c && all_bytes p s'
  end.

Definition is_ascii (c : byte) : bool := b2z c <? RuneSelf.

(** An ASCII byte that is no control character of the default mode. *)
Definition plain_byte (c : byte) : bool :=
  is_ascii c
  && negb (b2z c =? b2z "\"%char) && negb (b2z c =? b2z "*"%char)
  && negb (b2z c =? b2z "`"%char) && negb (b2z c =? b2z "["%char).

(** An ASCII byte that is no control character inside inline code. *)
Definition code_byte (c : byte) : bool :=
  is_ascii c
  && negb (b2z c =? b2z "\"%char) && negb (b2z c =? b2z "`"%char).

(** An ASCII byte that is no control character inside a link. *)
Definition link_byte (c : byte) : bool :=
  is_ascii c
  && negb (b2z c =? b2z "\"%char) && negb (b2z c =? b2z "]"%char).

(** The bytes [HTMLEscape] writes for one byte, and for a string. *)
Definition escape_byte (c : byte) : string :=
  match template.html_entity c with
  | Some html => html
  | None => String c ""
  end.

Fixpoint escaped (s : string) : string :=
  match s with
  | EmptyString => ""
  | String c s' => escape_byte c ++ escaped s'
  end.

(** The rune buffer holds one byte. *)
Definition one_byte_buffer (st : locals) : Prop :=
  exists b, runeBuffer st = [b].

(** Two states that differ at most in the byte of the rune buffer. *)
Definition same_trackers (st st' : locals) : Prop :=
  lastEscape st' = lastEscape st /\ lastBold st' = lastBold st
  /\ lastCode st' = lastCode st /\ lastLink st' = lastLink st
  /\ linkContent st' = linkContent st /\ one_byte_buffer st'.

(** The loop of [renderLine] over the runes of [s], a part of the line that
    starts at byte offset [n]. *)
Definition run_str {W} `{Writer W} (re : Renderer) (n : Z) (s : string)
    (st : locals) : M W locals :=
  run re (range_from n 0 s) st.

(** The HTML-escaped form of a text, as [HTMLEscape] writes it to an empty
    builder. *)
Definition html (s : string) : string :=
  template.HTMLEscape (W := Builder) "" s.

(** A computation on a builder that only appends: the bytes it adds and its
    result are those it gives on the empty builder. *)
Definition appends {A} (m : M Builder A) : Prop :=
  forall out, m out = (out ++ fst (m ""), snd (m "")).




(** The number of fence lines among the lines. *)
Definition count_fences (lines : list string) : nat :=
  List.length (filter (String.eqb fence) lines).

(** An input that does not end with a newline and is not empty. *)
Fixpoint unterminated (input : string) : bool :=
  match input with
  | EmptyString => false
  | String c EmptyString => negb (Ascii.eqb c newline_char)
  | String _ rest => unterminated rest
  end.

(** A byte that cannot open or close markup in element content or in a
    quoted attribute. *)
Definition markup_free (c : byte) : bool :=
  negb (existsb (Ascii.eqb c) ["000"; "034"; "'"; "<"; ">"]%char).

(** A writer whose every [Write] fails; its state counts the calls. *)
Definition FailingWriter := nat.

#[export] Instance FailingWriter_Writer : Writer FailingWriter :=
  fun calls _ => (S calls, Some "write failed").

(** ** The monad *)

Lemma bind_Ret_inv {W A B} (m : M W A) (f : A -> M W B) w w' b :
  bind m f w = (w', Ret b) ->
  exists w1 a, m w = (w1, Ret a) /\ f a w1 = (w', Ret b).
Proof.
  unfold bind. destruct (m w) as [w1 [a | e | msg]]; intros E.
  - exists w1, a. split; [reflexivity | exact E].
  - discriminate E.
  - discriminate E.
Qed.

Lemma bind_Ret {W A B} (m : M W A) (f : A -> M W B) w w1 a :
  m w = (w1, Ret a) -> bind m f w = f a w1.
Proof. unfold bind. intros ->. reflexivity. Qed.

Lemma bind_Err {W A B} (m : M W A) (f : A -> M W B) w w1 e :
  m w = (w1, Err e) -> bind m f w = (w1, Err e).
Proof. unfold bind. intros ->. reflexivity. Qed.

(** ** Strings *)

Lemma append_nil_r (s : string) : s ++ "" = s.
Proof. induction s as [|c s IH]; simpl; [reflexivity | now rewrite IH]. Qed.

Lemma append_assoc (a b c : string) : (a ++ b) ++ c = a ++ (b ++ c).
Proof. induction a as [|x a IH]; simpl; [reflexivity | now rewrite IH]. Qed.

(** ** The writer of the tests *)

Lemma Builder_write_or_return (p : string) (out : Builder) :
  write_or_return p out = (out ++ p, Ret tt).
Proof. reflexivity. Qed.

Lemma Builder_HTMLEscape_from (b pending : string) (out : Builder) :
  template.HTMLEscape_from pending b out
  = out ++ template.HTMLEscape_from pending b "".
Proof.
  revert pending out.
  induction b as [|c b IH]; intros pending out; simpl.
  - reflexivity.
  - destruct (template.html_entity c) as [html|].
    + rewrite IH. rewrite (IH _ (pending ++ html)).
      now rewrite !append_assoc.
    + apply IH.
Qed.

Lemma Builder_HTMLEscape (b : string) (out : Builder) :
  template.HTMLEscape out b = out ++ template.HTMLEscape (W := Builder) "" b.
Proof. apply Builder_HTMLEscape_from. Qed.

(** ** C1: runes outside ASCII *)

(** [EncodeRune] into a one-byte slice panics on every rune whose encoding
    takes more than one byte. *)
Lemma EncodeRune_short_buffer (b : byte) (r : rune) :
  rune1Max < uint32 r ->
  exists i, EncodeRune [b] r = inr (i, 1) /\ 1 <= i.
Proof.
  intros Hr. unfold EncodeRune, encoding.
  destruct (uint32 r <=? rune1Max) eqn:E1; [apply Z.leb_le in E1; lia|].
  destruct (uint32 r <=? rune2Max);
    [|destruct ((uint32 r <? surrogateMin)
                || ((surrogateMax <? uint32 r) && (uint32 r <=? rune3Max)));
      [|destruct ((rune3Max <? uint32 r) && (uint32 r <=? MaxRune))]];
    simpl; eexists; (split; [reflexivity | lia]).
Qed.

(** C1 (the code departs from the claim): on the line [é], a single rune
    outside ASCII, [renderLine] neither succeeds nor returns an error: it
    panics.  [runeBuffer] is the one-byte slice [[]byte{4}], and
    [utf8.EncodeRune] indexes [p[1]] for a two-byte rune. *)
Theorem renderLine_panics_on_non_ascii :
  renderLine (W := Builder) NewRenderer e_acute ""
  = ("", Panic "runtime error: index out of range [1] with length 1").
Proof. vm_compute. reflexivity. Qed.

(** ** C3: blank lines outside a fence *)

(** An empty line met in paragraph mode takes the branch of the code block
    lines and writes a newline. *)
Lemma scan_step_blank_line (lineCount : Z) (out : Builder) :
  scan_step NewRenderer "" lineCount (-1) out = (out ++ nl, Ret (-1)).
Proof.
  cbv [scan_step bind write_or_return template.HTMLEscape
         template.HTMLEscape_from Write Builder_Writer fst newline
         NewRenderer].
  simpl. rewrite append_nil_r. reflexivity.
Qed.

(** C3 (the code departs from the claim): the blank line between the
    paragraph lines [a] and [b] is not silent, a newline is written for it
    between the two paragraph blocks. *)
Theorem Render_blank_line_writes_newline :
  Render (W := Builder) NewRenderer ("a" ++ nl ++ nl ++ "b") ""
  = ("<p>a" ++ nl ++ "</p>" ++ nl ++ nl ++ "<p>b" ++ nl ++ "</p>" ++ nl,
     Ret tt).
Proof. vm_compute. reflexivity. Qed.

(** ** Links: C2, C8, C9 *)

Lemma Cut_None_iff (s : string) (sep : byte) :
  strings.Cut s sep = None <-> strings.Contains s sep = false.
Proof.
  induction s as [|c s IH]; simpl.
  - split; reflexivity.
  - destruct (Ascii.eqb c sep); simpl.
    + split; discriminate.
    + destruct (strings.Cut s sep) as [[before after]|].
      * split; [discriminate|]. intros E. apply IH in E. discriminate E.
      * split; [|reflexivity]. intros _. now apply IH.
Qed.

Lemma Cut_first (url label : string) (sep : byte) :
  strings.Contains url sep = false ->
  strings.Cut (url ++ String sep label) sep = Some (url, label).
Proof.
  induction url as [|c url IH]; simpl; intros E.
  - now rewrite Ascii.eqb_refl.
  - apply orb_false_iff in E as [E1 E2]. rewrite E1, (IH E2). reflexivity.
Qed.

Lemma Cut_Some_split (s before after : string) (sep : byte) :
  strings.Cut s sep = Some (before, after) ->
  s = before ++ String sep after /\ strings.Contains before sep = false.
Proof.
  revert before. induction s as [|c s IH]; simpl; intros before E.
  - discriminate E.
  - destruct (Ascii.eqb_spec c sep) as [->|Hc].
    + injection E as <- <-. split; reflexivity.
    + destruct (strings.Cut s sep) as [[b a]|]; [|discriminate E].
      injection E as <- <-. destruct (IH b eq_refl) as [-> Hb].
      split; [reflexivity|]. simpl.
      destruct (Ascii.eqb_spec c sep); [contradiction | exact Hb].
Qed.

Lemma SplitN_2 (s : string) (sep : byte) :
  strings.SplitN s sep 2
  = match strings.Cut s sep with
    | None => [s]
    | Some (before, after) => [before; after]
    end.
Proof. simpl. destruct (strings.Cut s sep) as [[b a]|]; reflexivity. Qed.

Lemma Builder_linkTemplate_Execute (l : link) (out : Builder) :
  linkTemplate_Execute l out = (out ++ link_html (URL l) (Label l), Ret tt).
Proof.
  unfold linkTemplate_Execute, bind, link_html.
  rewrite !Builder_write_or_return. f_equal.
  now rewrite !append_assoc.
Qed.

Lemma step_close_link_no_space {W} `{Writer W} re n st (out : W) :
  lastEscape st <= -1 -> lastLink st > -1 ->
  strings.Contains (linkContent st) " "%char = false ->
  step re n (b2z "]"%char) st out = (out, Err (malformed_link (linkContent st))).
Proof.
  intros He Hl Hc. unfold step.
  destruct (Z.gtb_spec (lastEscape st) (-1)); [lia|].
  destruct (Z.gtb_spec (lastLink st) (-1)); [|lia].
  change (b2z "]"%char =? b2z "\"%char) with false.
  change (b2z "]"%char =? b2z "]"%char) with true. cbv iota.
  cbv zeta. rewrite SplitN_2.
  change (linkContent (set_lastLink (-1) st)) with (linkContent st).
  apply Cut_None_iff in Hc. rewrite Hc. reflexivity.
Qed.

Lemma step_close_link_space re n st (out : Builder) url label :
  lastEscape st <= -1 -> lastLink st > -1 ->
  linkContent st = url ++ String " "%char label ->
  strings.Contains url " "%char = false ->
  step re n (b2z "]"%char) st out
  = (out ++ link_html url label,
     Ret (set_linkContent "" (set_lastLink (-1) st))).
Proof.
  intros He Hl Hc Hu. unfold step.
  destruct (Z.gtb_spec (lastEscape st) (-1)); [lia|].
  destruct (Z.gtb_spec (lastLink st) (-1)); [|lia].
  change (b2z "]"%char =? b2z "\"%char) with false.
  change (b2z "]"%char =? b2z "]"%char) with true. cbv iota.
  cbv zeta. rewrite SplitN_2.
  change (linkContent (set_lastLink (-1) st)) with (linkContent st).
  rewrite Hc, (Cut_first _ _ _ Hu).
  unfold bind. rewrite Builder_linkTemplate_Execute. reflexivity.
Qed.

(** C2 (what fails as stated): the contents [ x] and [x ] hold a space, so
    [SplitN] returns two parts, one of them empty, and the link is emitted:
    an empty URL or an empty Label is no error. *)
Lemma link_with_empty_part_is_rendered :
  strings.SplitN " x" " "%char 2 = [""; "x"]
  /\ renderLine (W := Builder) NewRenderer "[ x]" ""
     = ("<a href=" ++ dquote ++ dquote ++ ">x</a>", Ret tt)
  /\ strings.SplitN "x " " "%char 2 = ["x"; ""]
  /\ renderLine (W := Builder) NewRenderer "[x ]" ""
     = ("<a href=" ++ dquote ++ "x" ++ dquote ++ "></a>", Ret tt).
Proof. repeat split; vm_compute; reflexivity. Qed.

(** C2 (amended): when a []] closes a link, the render fails with the
    malformed-link error exactly when the accumulated content holds no
    space.  When it holds one, the content is split on the first space into
    URL and Label and the link is emitted, whatever the two parts are. *)
Theorem close_link_fails_iff_no_space
    (re : Renderer) (n : Z) (st : locals) (out : Builder) :
  lastEscape st <= -1 -> lastLink st > -1 ->
  (strings.Contains (linkContent st) " "%char = false ->
   step re n (b2z "]"%char) st out
   = (out, Err (malformed_link (linkContent st))))
  /\ (forall url label,
        linkContent st = url ++ String " "%char label ->
        strings.Contains url " "%char = false ->
        step re n (b2z "]"%char) st out
        = (out ++ link_html url label,
           Ret (set_linkContent "" (set_lastLink (-1) st))))
  /\ ((exists err, snd (step re n (b2z "]"%char) st out) = Err err)
      <-> strings.Contains (linkContent st) " "%char = false).
Proof.
  intros He Hl. split; [|split].
  - now apply step_close_link_no_space.
  - intros url label. now apply step_close_link_space.
  - split.
    + intros [err E].
      destruct (strings.Contains (linkContent st) " "%char) eqn:Hc;
        [|reflexivity].
      destruct (strings.Cut (linkContent st) " "%char) as [[url label]|] eqn:Hcut.
      * apply Cut_Some_split in Hcut as [Hs Hu].
        rewrite (step_close_link_space re n st out url label He Hl Hs Hu) in E.
        discriminate E.
      * apply Cut_None_iff in Hcut. congruence.
    + intros Hc. exists (malformed_link (linkContent st)).
      now rewrite step_close_link_no_space.
Qed.

Lemma close_link_fails_iff_no_space_witness :
  step (W := Builder) NewRenderer 6 (b2z "]"%char) in_link_1_2_3 ""
  = (link_html "1" "2 3",
     Ret (set_linkContent "" (set_lastLink (-1) in_link_1_2_3))).
Proof.
  refine (proj1 (proj2 (close_link_fails_iff_no_space
                          NewRenderer 6 in_link_1_2_3 "" _ _))
                "1" "2 3" _ _).
  - simpl. lia.
  - simpl. lia.
  - reflexivity.
  - reflexivity.
Defined.

Lemma step_inside_link {W} `{Writer W} re n r st (out : W) :
  lastEscape st <= -1 -> lastLink st > -1 ->
  r <> b2z "\"%char -> r <> b2z "]"%char ->
  step re n r st out
  = (out, Ret (set_linkContent (AppendRune (linkContent st) r) st)).
Proof.
  intros He Hl Hr1 Hr2. unfold step.
  destruct (Z.gtb_spec (lastEscape st) (-1)); [lia|].
  destruct (Z.gtb_spec (lastLink st) (-1)); [|lia].
  destruct (Z.eqb_spec r (b2z "\"%char)); [contradiction|].
  destruct (Z.eqb_spec r (b2z "]"%char)); [contradiction|].
  reflexivity.
Qed.



(** C9: the link template escapes its two halves differently.  The URL goes
    through the URL filter, the URL normaliser and the attribute escaper, so
    a [<] becomes [%3c]; the Label goes through the HTML escaper, so a [<]
    becomes [&lt;].  The lines [[<a 2]] and [[1 <]] render as the test table
    says. *)
Theorem link_halves_are_escaped_differently :
  (forall (l : link) (out : Builder),
      linkTemplate_Execute l out
      = (out ++ "<a href=" ++ dquote
             ++ template.attrEscaper
                  (template.urlNormalizer (template.urlFilter (URL l)))
             ++ dquote ++ ">" ++ template.htmlEscaper (Label l) ++ "</a>",
         Ret tt))
  /\ template.attrEscaper (template.urlNormalizer (template.urlFilter "<"))
     = "%3c"
  /\ template.htmlEscaper "<" = "&lt;"
  /\ renderLine (W := Builder) NewRenderer "[<a 2]" ""
     = ("<a href=" ++ dquote ++ "%3ca" ++ dquote ++ ">2</a>", Ret tt)
  /\ renderLine (W := Builder) NewRenderer "[1 <]" ""
     = ("<a href=" ++ dquote ++ "1" ++ dquote ++ ">&lt;</a>", Ret tt).
Proof.
  split; [|repeat split; vm_compute; reflexivity].
  intros l out. apply Builder_linkTemplate_Execute.
Qed.

(** ** The inline state machine: C6, C10 *)

Lemma writeEscapedRune_Ret {W} `{Writer W} r st (out out' : W) st' :
  writeEscapedRune r st out = (out', Ret st') ->
  exists buf, st' = set_runeBuffer buf st.
Proof.
  unfold writeEscapedRune.
  destruct (EncodeRune (runeBuffer st) r) as [[buf byteCount]|[i m]]; intros E.
  - injection E as _ <-. now exists buf.
  - discriminate E.
Qed.

Lemma ret_inv {W A} (a b : A) (w w' : W) :
  ret a w = (w', Ret b) -> w' = w /\ b = a.
Proof. unfold ret. intros E. injection E as <- <-. now split. Qed.

Lemma step_keeps_exclusive {W} `{Writer W} re n r st (out out' : W) st' :
  step re n r st out = (out', Ret st') ->
  exclusive st -> exclusive st'.
Proof.
  unfold step, exclusive. intros E Hx.
  destruct (Z.gtb_spec (lastEscape st) (-1)).
  { apply bind_Ret_inv in E as (w1 & st1 & E1 & E2).
    apply ret_inv in E2 as [_ ->].
    destruct (Z.gtb_spec (lastLink st) (-1)).
    - apply ret_inv in E1 as [_ ->]. exact Hx.
    - apply writeEscapedRune_Ret in E1 as [buf ->]. exact Hx. }
  destruct (Z.gtb_spec (lastLink st) (-1)).
  { destruct (r =? b2z "\"%char).
    { apply ret_inv in E as [_ ->]. exact Hx. }
    destruct (r =? b2z "]"%char).
    - cbv zeta in E.
      destruct (strings.SplitN _ _ _) as [|p0 [|p1 [|p2 ps]]];
        try discriminate E.
      apply bind_Ret_inv in E as (w1 & u & _ & E2).
      apply ret_inv in E2 as [_ ->]. simpl. lia.
    - apply ret_inv in E as [_ ->]. exact Hx. }
  destruct (Z.gtb_spec (lastCode st) (-1)).
  { destruct (r =? b2z "\"%char).
    { apply ret_inv in E as [_ ->]. simpl. lia. }
    destruct (r =? b2z "`"%char).
    - apply bind_Ret_inv in E as (w1 & u & _ & E2).
      apply ret_inv in E2 as [_ ->]. simpl. lia.
    - apply writeEscapedRune_Ret in E as [buf ->]. simpl. lia. }
  destruct (r =? b2z "\"%char).
  { apply ret_inv in E as [_ ->]. simpl. lia. }
  destruct (r =? b2z "*"%char).
  { destruct (lastBold st <? 0);
      apply bind_Ret_inv in E as (w1 & u & _ & E2);
      apply ret_inv in E2 as [_ ->]; simpl; lia. }
  destruct (r =? b2z "`"%char).
  { apply bind_Ret_inv in E as (w1 & u & _ & E2).
    apply ret_inv in E2 as [_ ->]. simpl. lia. }
  destruct (r =? b2z "["%char).
  { apply ret_inv in E as [_ ->]. simpl. lia. }
  apply writeEscapedRune_Ret in E as [buf ->]. simpl. lia.
Qed.

Lemma run_keeps_exclusive {W} `{Writer W} re rs st (out out' : W) st' :
  run re rs st out = (out', Ret st') ->
  exclusive st -> exclusive st'.
Proof.
  revert st out. induction rs as [|[n r] rs IH]; intros st out E Hx.
  - apply ret_inv in E as [_ ->]. exact Hx.
  - simpl in E. apply bind_Ret_inv in E as (w1 & st1 & E1 & E2).
    apply (IH st1 w1 E2). now apply (step_keeps_exclusive re n r st out w1).
Qed.

(** C10: on every paragraph line and after any number [k] of its runes, the
    code-open and link-open trackers are not both active.  Escape-pending
    does occur together with each other tracker: with link-open after [[\],
    with code-open after [`\], with bold-open after [*\]. *)
Theorem code_and_link_never_both_open :
  (forall (W : Type) (HW : Writer W) re line (k : nat) (out out' : W) st,
      run re (firstn k (range_string line)) initial out = (out', Ret st) ->
      ~ (lastCode st > -1 /\ lastLink st > -1))
  /\ (exists out st,
        run (W := Builder) NewRenderer (range_string "[\") initial ""
        = (out, Ret st)
        /\ lastEscape st > -1 /\ lastLink st > -1)
  /\ (exists out st,
        run (W := Builder) NewRenderer (range_string "`\") initial ""
        = (out, Ret st)
        /\ lastEscape st > -1 /\ lastCode st > -1)
  /\ (exists out st,
        run (W := Builder) NewRenderer (range_string "*\") initial ""
        = (out, Ret st)
        /\ lastEscape st > -1 /\ lastBold st > -1).
Proof.
  split; [|repeat split].
  - intros W HW re line k out out' st E.
    apply (run_keeps_exclusive re _ initial out out' st E).
    unfold exclusive. simpl. lia.
  - eexists _, _. split; [vm_compute; reflexivity | simpl; lia].
  - eexists _, _. split; [vm_compute; reflexivity | simpl; lia].
  - eexists _, _. split; [vm_compute; reflexivity | simpl; lia].
Qed.

Lemma code_and_link_never_both_open_witness :
  ~ (lastCode in_code_at_2 > -1 /\ lastLink in_code_at_2 > -1).
Proof.
  refine (proj1 code_and_link_never_both_open Builder _ NewRenderer
            "a `[b" 3%nat "" "a <code>" in_code_at_2 _).
  vm_compute. reflexivity.
Defined.

(** *** Decoding a line that ends with a backslash *)

Lemma len_String (c : byte) (s : string) : len (String c s) = 1 + len s.
Proof. unfold len. simpl String.length. lia. Qed.

Lemma len_nonneg (s : string) : 0 <= len s.
Proof. unfold len. lia. Qed.

Lemma first_cases (b : Z) :
  first b = as_ \/ first b = xx \/ first b = s1 \/ first b = s2
  \/ first b = s3 \/ first b = s4 \/ first b = s5 \/ first b = s6
  \/ first b = s7.
Proof.
  unfold first.
  repeat match goal with
         | |- context [if ?c then _ else _] => destruct c
         end; tauto.
Qed.

Ltac split_ifs :=
  repeat match goal with
         | |- context [if ?c then _ else _] => destruct c eqn:?
         end.

(** The width of the first rune is at least one and at most the length of
    the string. *)
Lemma DecodeRuneInString_width (c : byte) (s : string) :
  1 <= snd (DecodeRuneInString (String c s)) <= len (String c s).
Proof.
  unfold DecodeRuneInString.
  destruct (as_ <=? first (b2z c)); [simpl snd; rewrite len_String; pose proof (len_nonneg s); lia|].
  destruct (len (String c s) <? Z.land (first (b2z c)) 7);
    [simpl snd; rewrite len_String; pose proof (len_nonneg s); lia|].
  destruct s as [|c1 [|c2 [|c3 s]]];
    rewrite ?len_String; try pose proof (len_nonneg s);
    split_ifs; simpl snd; change (len "") with 0; lia.
Qed.

Ltac bools_to_props :=
  repeat match goal with
         | H : (_ || _) = false |- _ => apply orb_false_iff in H as [? ?]
         | H : (_ || _) = true |- _ => apply orb_true_iff in H as [?|?]
         | H : (_ <? _) = true |- _ => apply Z.ltb_lt in H
         | H : (_ <? _) = false |- _ => apply Z.ltb_ge in H
         | H : (_ <=? _) = true |- _ => apply Z.leb_le in H
         | H : (_ <=? _) = false |- _ => apply Z.leb_gt in H
         end.

(** A backslash after the line does not change how the line decodes: where
    a sequence was cut short by the end of the line, the backslash is no
    continuation byte. *)
Lemma DecodeRuneInString_backslash (c : byte) (s : string) :
  DecodeRuneInString (String c s ++ "\") = DecodeRuneInString (String c s).
Proof.
  change (String c s ++ "\") with (String c (s ++ "\")).
  unfold DecodeRuneInString.
  destruct (as_ <=? first (b2z c)) eqn:Ex; [reflexivity|].
  assert (Hp : 2 <= Z.land (first (b2z c)) 7 <= 4
               /\ 92 < lo (acceptRanges (Z.shiftr (first (b2z c)) 4))).
  { destruct (first_cases (b2z c)) as [E|[E|[E|[E|[E|[E|[E|[E|E]]]]]]]];
      rewrite E in *; try discriminate Ex;
      (split; [split|]); now vm_compute. }
  set (sz := Z.land (first (b2z c)) 7) in *.
  set (a := acceptRanges (Z.shiftr (first (b2z c)) 4)) in *.
  clearbody sz a. destruct Hp as [Hsz Ha].
  destruct s as [|c1 [|c2 [|c3 s]]];
    cbn [append]; rewrite ?len_String; change (len "") with 0;
    try pose proof (len_nonneg s); try pose proof (len_nonneg (s ++ "\"));
    change (b2z "\"%char) with 92;
    change ((92 <? locb) || (hicb <? 92)) with true;
    split_ifs; try reflexivity; exfalso; bools_to_props; lia.
Qed.

Lemma range_from_backslash (s : string) (n : Z) (skip : nat) :
  (skip <= String.length s)%nat ->
  range_from n skip (s ++ "\")
  = (range_from n skip s ++ [(n + len s, b2z "\"%char)])%list.
Proof.
  revert n skip. induction s as [|c s IH]; intros n skip Hs.
  - assert (skip = 0%nat) as -> by (simpl in Hs; lia).
    change (len "") with 0. rewrite Z.add_0_r. reflexivity.
  - cbn [append range_from]. rewrite len_String.
    destruct skip as [|k].
    + change (String c (s ++ "\")) with (String c s ++ "\").
      rewrite DecodeRuneInString_backslash.
      pose proof (DecodeRuneInString_width c s) as Hw.
      destruct (DecodeRuneInString (String c s)) as [r size].
      simpl snd in Hw. rewrite len_String in Hw. unfold len in Hw.
      replace (n + (1 + len s)) with (n + 1 + len s) by lia.
      rewrite IH by lia. reflexivity.
    + replace (n + (1 + len s)) with (n + 1 + len s) by lia.
      rewrite IH by (simpl in Hs; lia). reflexivity.
Qed.

Lemma range_string_backslash (line : string) :
  range_string (line ++ "\")
  = (range_string line ++ [(len line, b2z "\"%char)])%list.
Proof. unfold range_string. rewrite range_from_backslash by lia. reflexivity. Qed.

Lemma step_escaped_outside_link {W} `{Writer W} re n r st (out : W) b rest :
  lastEscape st > -1 -> lastLink st <= -1 ->
  0 <= r <= rune1Max -> runeBuffer st = b :: rest ->
  step re n r st out
  = (template.HTMLEscape out (String (z2b r) ""),
     Ret (set_lastEscape (-1) (set_runeBuffer (z2b r :: rest) st))).
Proof.
  intros He Hl Hr Hb. unfold step.
  destruct (Z.gtb_spec (lastEscape st) (-1)); [|lia].
  destruct (Z.gtb_spec (lastLink st) (-1)); [lia|].
  unfold bind, writeEscapedRune, EncodeRune, encoding, uint32.
  rewrite Hb, Z.mod_small by (unfold rune1Max in Hr; lia).
  destruct (Z.leb_spec r rune1Max); [|lia].
  cbn [store]. reflexivity.
Qed.

Lemma step_escaped_in_link {W} `{Writer W} re n r st (out : W) :
  lastEscape st > -1 -> lastLink st > -1 ->
  step re n r st out
  = (out,
     Ret (set_lastEscape (-1)
            (set_linkContent (AppendRune (linkContent st) r) st))).
Proof.
  intros He Hl. unfold step.
  destruct (Z.gtb_spec (lastEscape st) (-1)); [|lia].
  destruct (Z.gtb_spec (lastLink st) (-1)); [|lia].
  reflexivity.
Qed.

Lemma step_backslash {W} `{Writer W} re n st (out : W) :
  lastEscape st <= -1 ->
  step re n (b2z "\"%char) st out = (out, Ret (set_lastEscape n st)).
Proof.
  intros He. unfold step.
  destruct (Z.gtb_spec (lastEscape st) (-1)); [lia|].
  change (b2z "\"%char =? b2z "\"%char) with true.
  destruct (lastLink st >? -1); [reflexivity|].
  destruct (lastCode st >? -1); reflexivity.
Qed.

Lemma run_app {W} `{Writer W} re rs1 rs2 st (out : W) :
  run re (rs1 ++ rs2)%list st out
  = bind (run re rs1 st) (run re rs2) out.
Proof.
  revert st out. induction rs1 as [|[n r] rs1 IH]; intros st out.
  - reflexivity.
  - cbn [app run]. unfold bind.
    destruct (step re n r st out) as [w1 [st1|e|msg]];
      [rewrite IH| |]; reflexivity.
Qed.

Lemma renderLine_trailing_backslash {W} `{Writer W} re line (out out' : W) st :
  run re (range_string line) initial out = (out', Ret st) ->
  lastEscape st <= -1 ->
  renderLine re (line ++ "\") out = renderLine re line out.
Proof.
  intros E He. unfold renderLine.
  rewrite range_string_backslash, (bind_Ret _ _ _ _ _ E).
  unfold bind at 1. rewrite run_app, (bind_Ret _ _ _ _ _ E).
  cbn [run]. unfold bind at 1. rewrite (step_backslash _ _ _ _ He).
  reflexivity.
Qed.

(** C6 (the code departs from the claim): a backslash does not make every
    next rune literal data.  On the line of a backslash and [é], the escaped
    rune is handed to [writeEscapedRune], which encodes it into the one-byte
    [runeBuffer]: [renderLine] panics instead of writing the rune.  It is
    the defect of C1, met on the escape path. *)
Theorem renderLine_panics_on_escaped_non_ascii :
  renderLine (W := Builder) NewRenderer escaped_e_acute ""
  = ("", Panic "runtime error: index out of range [1] with length 1").
Proof. vm_compute. reflexivity. Qed.

(** ** The block scanner: C4, C5, C7 *)

Lemma scan_step_Ret_fence {W} `{Writer W} re lineCount k (out out' : W) k' :
  scan_step re fence lineCount k out = (out', Ret k') ->
  (k = -1 /\ k' = lineCount) \/ (k <> -1 /\ k' = -1).
Proof.
  unfold scan_step. rewrite String.eqb_refl.
  destruct (Z.eqb_spec k (-1)) as [Hk|Hk]; intros E;
    apply bind_Ret_inv in E as (w1 & u & _ & E2);
    apply ret_inv in E2 as [_ ->]; [left | right]; now split.
Qed.

Lemma scan_step_Ret_other {W} `{Writer W} re line lineCount k
    (out out' : W) k' :
  line <> fence ->
  scan_step re line lineCount k out = (out', Ret k') -> k' = k.
Proof.
  intros Hf. unfold scan_step.
  apply String.eqb_neq in Hf. rewrite Hf.
  destruct ((k =? -1) && negb (line =? "")%string); intros E.
  - apply bind_Ret_inv in E as (w1 & u1 & _ & E).
    apply bind_Ret_inv in E as (w2 & u2 & _ & E).
    apply bind_Ret_inv in E as (w3 & u3 & _ & E).
    now apply ret_inv in E as [_ ->].
  - apply bind_Ret_inv in E as (w1 & u1 & _ & E).
    apply bind_Ret_inv in E as (w2 & u2 & _ & E).
    now apply ret_inv in E as [_ ->].
Qed.

Lemma Builder_scan_step_open re lineCount (out : Builder) :
  scan_step re fence lineCount (-1) out
  = (out ++ codeBlockStart re, Ret lineCount).
Proof. reflexivity. Qed.

Lemma Builder_scan_step_close re lineCount k (out : Builder) :
  k <> -1 ->
  scan_step re fence lineCount k out = (out ++ codeBlockEnd re, Ret (-1)).
Proof.
  intros Hk. unfold scan_step. rewrite String.eqb_refl.
  destruct (Z.eqb_spec k (-1)); [contradiction | reflexivity].
Qed.

Lemma Builder_scan_step_in_fence re line lineCount k (out : Builder) :
  k <> -1 -> line <> fence ->
  scan_step re line lineCount k out
  = (template.HTMLEscape out line ++ newline re, Ret k).
Proof.
  intros Hk Hf. unfold scan_step.
  apply String.eqb_neq in Hf. rewrite Hf.
  destruct (Z.eqb_spec k (-1)); [contradiction | reflexivity].
Qed.

(** C7: a line that is processed changes the block mode exactly when it is
    the fence, three backticks and nothing else.  An opening fence writes
    [<pre><code>] and records its line number, a closing fence writes
    [</code></pre>] and a newline; two fence lines in a row render the empty
    code block. *)
Theorem fence_line_toggles_block_mode :
  (forall (W : Type) (HW : Writer W) re line lineCount k (out out' : W) k',
      1 <= lineCount ->
      scan_step re line lineCount k out = (out', Ret k') ->
      (InCodeFence k' = negb (InCodeFence k) <-> line = "```"))
  /\ (forall lineCount (out : Builder),
        scan_step NewRenderer "```" lineCount (-1) out
        = (out ++ "<pre><code>", Ret lineCount))
  /\ (forall lineCount k (out : Builder),
        k <> -1 ->
        scan_step NewRenderer "```" lineCount k out
        = (out ++ "</code></pre>" ++ nl, Ret (-1)))
  /\ Render (W := Builder) NewRenderer ("```" ++ nl ++ "```") ""
     = ("<pre><code></code></pre>" ++ nl, Ret tt).
Proof.
  split; [|split; [|split]].
  - intros W HW re line lineCount k out out' k' Hn E.
    unfold InCodeFence.
    destruct (String.eqb_spec line fence) as [->|Hf].
    + apply scan_step_Ret_fence in E as [[-> ->]|[Hk ->]].
      * split; [reflexivity|]. intros _.
        destruct (Z.eqb_spec lineCount (-1)); [lia | reflexivity].
      * split; [reflexivity|]. intros _.
        destruct (Z.eqb_spec k (-1)); [contradiction | reflexivity].
    + apply (scan_step_Ret_other re line lineCount k out out' k' Hf) in E
        as ->.
      split; [|intros Hl; contradiction].
      destruct (k =? -1); discriminate.
  - intros lineCount out. apply Builder_scan_step_open.
  - intros lineCount k out. apply Builder_scan_step_close.
  - vm_compute. reflexivity.
Qed.

Lemma fence_line_toggles_block_mode_witness :
  (InCodeFence 3 = negb (InCodeFence (-1)) <-> "```" = "```")
  /\ scan_step (W := Builder) NewRenderer "```" 5 3 "<pre><code>"
     = ("<pre><code>" ++ "</code></pre>" ++ nl, Ret (-1)).
Proof.
  split.
  - refine (proj1 fence_line_toggles_block_mode Builder _ NewRenderer
              "```" 3 (-1) "" "<pre><code>" 3 _ _).
    + lia.
    + reflexivity.
  - refine (proj1 (proj2 (proj2 fence_line_toggles_block_mode)) 5 3
              "<pre><code>" _).
    discriminate.
Defined.

Lemma scan_loop_app {W} `{Writer W} re before after n k (out : W) :
  scan_loop re (before ++ after)%list n k out
  = bind (scan_loop re before n k)
         (fun k' => scan_loop re after (n + lines_before before) k') out.
Proof.
  revert n k out. induction before as [|l before IH]; intros n k out.
  - unfold lines_before. cbn [app scan_loop List.length Z.of_nat bind ret].
    now rewrite Z.add_0_r.
  - cbn [app scan_loop]. unfold bind.
    destruct (scan_step re l (n + 1) k out) as [w1 [k1|e|msg]];
      [|reflexivity|reflexivity].
    rewrite IH. unfold bind, lines_before.
    replace (n + 1 + Z.of_nat (List.length before))
      with (n + Z.of_nat (List.length (l :: before)))
      by (cbn [List.length]; lia).
    reflexivity.
Qed.

(** Where a scan that ends inside a fence opened it. *)
Lemma scan_loop_Ret_open {W} `{Writer W} re lines n k (out out' : W) k' :
  0 <= n ->
  scan_loop re lines n k out = (out', Ret k') ->
  k' = -1
  \/ (k' = k /\ Forall (fun l => l <> fence) lines)
  \/ (exists before after out1,
        lines = (before ++ fence :: after)%list
        /\ k' = n + lines_before before + 1
        /\ scan_loop re before n k out = (out1, Ret (-1))
        /\ Forall (fun l => l <> fence) after).
Proof.
  revert n k out. induction lines as [|l lines IH]; intros n k out Hn E.
  - apply ret_inv in E as [_ ->]. right. left. now split.
  - cbn [scan_loop] in E.
    apply bind_Ret_inv in E as (w1 & k1 & E1 & E2).
    destruct (IH (n + 1) k1 w1 ltac:(lia) E2)
      as [Hk | [[Hk Hall] | (before & after & out1 & -> & Hk & Hb & Hall)]].
    + now left.
    + destruct (String.eqb_spec l fence) as [->|Hf].
      * apply scan_step_Ret_fence in E1 as Hm.
        destruct Hm as [[-> ->]|[Hk0 ->]].
        -- right. right. exists [], lines, out.
           unfold lines_before. cbn [app List.length Z.of_nat scan_loop].
           repeat split; [lia | exact Hall].
        -- now left.
      * apply (scan_step_Ret_other re l (n + 1) k out w1 k1 Hf) in E1 as ->.
        right. left. split; [exact Hk|]. now constructor.
    + right. right. exists (l :: before), after, out1.
      repeat split.
      * unfold lines_before in *. cbn [List.length]. lia.
      * cbn [scan_loop]. now rewrite (bind_Ret _ _ _ _ _ E1).
      * exact Hall.
Qed.

(** With the writer of the tests, the lines after an opening fence are all
    consumed as long as none of them is a fence. *)
Lemma Builder_scan_loop_in_fence re lines n k (out : Builder) :
  k <> -1 -> Forall (fun l => l <> fence) lines ->
  exists out', scan_loop re lines n k out = (out', Ret k).
Proof.
  intros Hk Hall. revert n out.
  induction Hall as [|l lines Hl Hall IH]; intros n out.
  - now exists out.
  - cbn [scan_loop].
    rewrite (bind_Ret _ _ _ _ _ (Builder_scan_step_in_fence re l _ k out Hk Hl)).
    apply IH.
Qed.

(** C4: when the scanner has delivered every line and the loop has consumed
    them all, [Render] succeeds if the block mode is back to paragraph, and
    otherwise fails with the unclosed-code-block error that carries the
    1-based number [k] of the opening fence: line [k] is a fence met in
    paragraph mode and no fence follows it.  With the writer of the tests a
    fence opened after content that rendered well and never closed always
    ends in that error. *)
Theorem Render_at_end_of_input :
  (forall (W : Type) (HW : Writer W) re input lines (out out' : W) k,
      bufio.ScanLines input = (lines, None) ->
      scan_loop re lines 0 (-1) out = (out', Ret k) ->
      (k = -1 -> Render re input out = (out', Ret tt))
      /\ (k <> -1 ->
          Render re input out
          = (out', Err ("unclosed code block (```) on line: " ++ fmt.itoa k))
          /\ exists before after out1,
               lines = (before ++ "```" :: after)%list
               /\ k = lines_before before + 1
               /\ scan_loop re before 0 (-1) out = (out1, Ret (-1))
               /\ Forall (fun l => l <> "```") after))
  /\ (forall re input before after (out out1 : Builder),
        bufio.ScanLines input = ((before ++ "```" :: after)%list, None) ->
        scan_loop re before 0 (-1) out = (out1, Ret (-1)) ->
        Forall (fun l => l <> "```") after ->
        exists out',
          Render re input out
          = (out',
             Err ("unclosed code block (```) on line: "
                  ++ fmt.itoa (lines_before before + 1)))).
Proof.
  split.
  - intros W HW re input lines out out' k Hscan E. split.
    + intros ->. unfold Render. rewrite Hscan.
      now rewrite (bind_Ret _ _ _ _ _ E).
    + intros Hk. split.
      * unfold Render. rewrite Hscan, (bind_Ret _ _ _ _ _ E).
        destruct (Z.eqb_spec k (-1)); [contradiction | reflexivity].
      * destruct (scan_loop_Ret_open re lines 0 (-1) out out' k
                    ltac:(lia) E)
          as [Hk1 | [[Hk1 _] | (before & after & out1 & Hl & Hk1 & Hb & Hall)]];
          [contradiction | contradiction |].
        exists before, after, out1. repeat split; assumption.
  - intros re input before after out out1 Hscan Hb Hall.
    assert (Hk : 0 + lines_before before + 1 <> -1)
      by (unfold lines_before; lia).
    destruct (Builder_scan_loop_in_fence re after
                (0 + lines_before before + 1) _
                (out1 ++ codeBlockStart re) Hk Hall) as [out' E].
    exists out'. unfold Render. rewrite Hscan. cbv beta iota.
    unfold bind at 1. rewrite scan_loop_app.
    rewrite (bind_Ret _ _ _ _ _ Hb). cbn [scan_loop].
    rewrite (bind_Ret _ _ _ _ _ (Builder_scan_step_open re _ out1)).
    rewrite E.
    destruct (Z.eqb_spec (0 + lines_before before + 1) (-1));
      [contradiction | reflexivity].
Qed.

Lemma Render_at_end_of_input_witness :
  (exists out',
     Render (W := Builder) NewRenderer
       ("x" ++ nl ++ "```" ++ nl ++ "<y>" ++ nl ++ "*") ""
     = (out', Err ("unclosed code block (```) on line: " ++ fmt.itoa 2)))
  /\ Render (W := Builder) NewRenderer ("```" ++ nl ++ "a" ++ nl ++ "```") ""
     = ("<pre><code>a" ++ nl ++ "</code></pre>" ++ nl, Ret tt).
Proof.
  split.
  - refine (proj2 Render_at_end_of_input NewRenderer
              ("x" ++ nl ++ "```" ++ nl ++ "<y>" ++ nl ++ "*")
              ["x"] ["<y>"; "*"] "" ("<p>x" ++ nl ++ "</p>" ++ nl) _ _ _).
    + vm_compute. reflexivity.
    + vm_compute. reflexivity.
    + repeat constructor; discriminate.
  - refine (proj1 (proj1 Render_at_end_of_input Builder _ NewRenderer
                     ("```" ++ nl ++ "a" ++ nl ++ "```")
                     ["```"; "a"; "```"] ""
                     ("<pre><code>a" ++ nl ++ "</code></pre>" ++ nl)
                     (-1) _ _) _).
    + vm_compute. reflexivity.
    + vm_compute. reflexivity.
    + reflexivity.
Defined.

Lemma scan_step_inline_error {W} `{Writer W} re line lineCount
    (out out1 out2 : W) err :
  line <> fence -> line <> "" ->
  Write out (textBlockStart re) = (out1, None) ->
  renderLine re line out1 = (out2, Err err) ->
  scan_step re line lineCount (-1) out
  = (out2, Err ("line " ++ fmt.itoa lineCount ++ ": " ++ err)).
Proof.
  intros Hf He Hw Hr. unfold scan_step.
  apply String.eqb_neq in Hf, He. rewrite Hf, He.
  cbn [Z.eqb Pos.eqb andb negb Z.opp].
  unfold bind at 1, write_or_return at 1. rewrite Hw.
  unfold bind at 1. rewrite Hr. reflexivity.
Qed.

Lemma step_open_bold re n st (out : Builder) :
  lastEscape st <= -1 -> lastLink st <= -1 -> lastCode st <= -1 ->
  lastBold st < 0 ->
  step re n (b2z "*"%char) st out
  = (out ++ boldTextStart re, Ret (set_lastBold n st)).
Proof.
  intros He Hl Hc Hb. unfold step.
  destruct (Z.gtb_spec (lastEscape st) (-1)); [lia|].
  destruct (Z.gtb_spec (lastLink st) (-1)); [lia|].
  destruct (Z.gtb_spec (lastCode st) (-1)); [lia|].
  change (b2z "*"%char =? b2z "\"%char) with false.
  change (b2z "*"%char =? b2z "*"%char) with true. cbv iota.
  destruct (Z.ltb_spec (lastBold st) 0); [reflexivity | lia].
Qed.

Lemma finish_unclosed_bold {W} `{Writer W} st (out : W) :
  lastBold st > -1 ->
  finish st out
  = (out, Err ("unclosed bold text (*) at position: "
               ++ fmt.itoa (lastBold st))).
Proof.
  intros Hb. unfold finish.
  destruct (Z.gtb_spec (lastBold st) (-1)); [reflexivity | lia].
Qed.

(** C5: an error of [renderLine] on a paragraph line ends [Render] at once
    with the message prefixed by the 1-based number of that line, whatever
    follows in the input.  A star met in default mode with bold closed
    records its byte offset, and a line that ends with bold open fails with
    that offset.  For the three lines [a], [b*], [c] the error is the
    unclosed-bold message of position 1 prefixed with [line 2: ]. *)
Theorem inline_error_carries_line_number :
  (forall (W : Type) (HW : Writer W) re input before line after scanErr
          (out out1 out2 out3 : W) err,
      bufio.ScanLines input = ((before ++ line :: after)%list, scanErr) ->
      scan_loop re before 0 (-1) out = (out1, Ret (-1)) ->
      line <> "```" -> line <> "" ->
      Write out1 (textBlockStart re) = (out2, None) ->
      renderLine re line out2 = (out3, Err err) ->
      Render re input out
      = (out3,
         Err ("line " ++ fmt.itoa (lines_before before + 1) ++ ": " ++ err)))
  /\ (forall re n st (out : Builder),
        lastEscape st <= -1 -> lastLink st <= -1 -> lastCode st <= -1 ->
        lastBold st < 0 ->
        step re n (b2z "*"%char) st out
        = (out ++ boldTextStart re, Ret (set_lastBold n st)))
  /\ (forall (W : Type) (HW : Writer W) st (out : W),
        lastBold st > -1 ->
        finish st out
        = (out, Err ("unclosed bold text (*) at position: "
                     ++ fmt.itoa (lastBold st))))
  /\ Render (W := Builder) NewRenderer ("a" ++ nl ++ "b*" ++ nl ++ "c") ""
     = ("<p>a" ++ nl ++ "</p>" ++ nl ++ "<p>b<strong>",
        Err "line 2: unclosed bold text (*) at position: 1").
Proof.
  split; [|split; [|split]].
  - intros W HW re input before line after scanErr out out1 out2 out3 err
           Hscan Hb Hf He Hw Hr.
    unfold Render. rewrite Hscan. cbv beta iota.
    unfold bind at 1. rewrite scan_loop_app.
    rewrite (bind_Ret _ _ _ _ _ Hb). cbn [scan_loop].
    rewrite (bind_Err _ _ _ _ _
               (scan_step_inline_error re line _ out1 out2 out3 err
                  Hf He Hw Hr)).
    reflexivity.
  - intros re n st out. apply step_open_bold.
  - intros W HW st out. apply finish_unclosed_bold.
  - vm_compute. reflexivity.
Qed.

Lemma inline_error_carries_line_number_witness :
  Render (W := Builder) NewRenderer ("a" ++ nl ++ "b*" ++ nl ++ "c") ""
  = ("<p>a" ++ nl ++ "</p>" ++ nl ++ "<p>b<strong>",
     Err ("line " ++ fmt.itoa (lines_before ["a"] + 1) ++ ": "
          ++ "unclosed bold text (*) at position: 1"))
  /\ step (W := Builder) NewRenderer 1 (b2z "*"%char)
          (set_runeBuffer ["b"%char] initial) "<p>b"
     = ("<p>b<strong>", Ret (set_lastBold 1 (set_runeBuffer ["b"%char] initial)))
  /\ finish (W := Builder) (set_lastBold 1 initial) "<p>b<strong>"
     = ("<p>b<strong>", Err "unclosed bold text (*) at position: 1").
Proof.
  split; [|split].
  - refine (proj1 inline_error_carries_line_number Builder _ NewRenderer
              ("a" ++ nl ++ "b*" ++ nl ++ "c") ["a"] "b*" ["c"] None ""
              ("<p>a" ++ nl ++ "</p>" ++ nl)
              ("<p>a" ++ nl ++ "</p>" ++ nl ++ "<p>")
              ("<p>a" ++ nl ++ "</p>" ++ nl ++ "<p>b<strong>")
              "unclosed bold text (*) at position: 1" _ _ _ _ _ _).
    + vm_compute. reflexivity.
    + vm_compute. reflexivity.
    + discriminate.
    + discriminate.
    + vm_compute. reflexivity.
    + vm_compute. reflexivity.
  - refine (proj1 (proj2 inline_error_carries_line_number) NewRenderer 1
              (set_runeBuffer ["b"%char] initial) "<p>b" _ _ _ _);
      simpl; lia.
  - refine (proj1 (proj2 (proj2 inline_error_carries_line_number)) Builder _
              (set_lastBold 1 initial) "<p>b<strong>" _).
    simpl. lia.
Defined.

(** ** The extent of the panic of C1 *)

Lemma DecodeRuneInString_ascii (c : byte) (s : string) :
  b2z c < RuneSelf -> DecodeRuneInString (String c s) = (b2z c, 1).
Proof.
  intros Hc. unfold DecodeRuneInString, first, RuneSelf in *.
  destruct (Z.ltb_spec (b2z c) 0x80); [|lia].
  change (as_ <=? as_) with true. cbv iota.
  change (Z.shiftr (int32 (Z.shiftl as_ 31)) 31) with 0.
  change (Z.lnot 0) with (-1).
  now rewrite Z.land_m1_r, Z.land_0_r, Z.lor_0_r.
Qed.

Lemma b2z_nonneg (c : byte) : 0 <= b2z c.
Proof. unfold b2z. lia. Qed.

Lemma range_from_ascii (s : string) (n : Z) :
  Forall (fun c => b2z c < RuneSelf) (list_ascii_of_string s) ->
  Forall (fun nr => 0 <= snd nr <= rune1Max) (range_from n 0 s).
Proof.
  revert n. induction s as [|c s IH]; intros n Hs.
  - constructor.
  - cbn [list_ascii_of_string] in Hs. inversion Hs as [|? ? Hc Hs']; subst.
    cbn [range_from]. rewrite (DecodeRuneInString_ascii c s Hc).
    constructor.
    + cbn [snd]. pose proof (b2z_nonneg c).
      unfold RuneSelf, rune1Max in *. lia.
    + apply IH, Hs'.
Qed.

Lemma writeEscapedRune_ascii {W} `{Writer W} r st (out : W) :
  0 <= r <= rune1Max -> runeBuffer st <> [] ->
  exists out' st',
    writeEscapedRune r st out = (out', Ret st') /\ runeBuffer st' <> [].
Proof.
  intros Hr Hb. destruct (runeBuffer st) as [|b rest] eqn:Eb; [contradiction|].
  unfold writeEscapedRune, EncodeRune, encoding, uint32.
  rewrite Eb, Z.mod_small by (unfold rune1Max in Hr; lia).
  destruct (Z.leb_spec r rune1Max); [|lia].
  cbn [store]. eexists _, _. split; [reflexivity | discriminate].
Qed.

Lemma step_ascii_no_panic {W} `{Writer W} re n r st (out out' : W) msg :
  0 <= r <= rune1Max -> runeBuffer st <> [] ->
  step re n r st out <> (out', Panic msg).
Proof.
  intros Hr Hb. unfold step, bind, ret, fail, linkTemplate_Execute, bind,
    write_or_return.
  destruct (writeEscapedRune_ascii r st out Hr Hb) as (w & st1 & E & _).
  repeat match goal with
         | |- context [writeEscapedRune r st out] => rewrite E
         | |- context [if ?c then _ else _] => destruct c
         | |- context [match Write ?w ?p with _ => _ end] =>
           destruct (Write w p) as [? [?|]]
         | |- context [match strings.SplitN ?s ?c ?k with _ => _ end] =>
           destruct (strings.SplitN s c k) as [|? [|? [|? ?]]]
         end; discriminate.
Qed.

Lemma step_keeps_runeBuffer {W} `{Writer W} re n r st (out out' : W) st' :
  step re n r st out = (out', Ret st') ->
  runeBuffer st <> [] -> runeBuffer st' <> [].
Proof.
  intros E Hb.
  assert (Hkeep : forall buf, EncodeRune (runeBuffer st) r = inl buf ->
                              fst buf <> []).
  { intros [buf k]. unfold EncodeRune.
    destruct (store (runeBuffer st) (encoding r)) as [q|] eqn:Es;
      [|discriminate].
    intros Eq. injection Eq as <- _. cbn [fst].
    destruct (runeBuffer st) as [|b rest]; [contradiction|].
    destruct (encoding r) as [|e es]; cbn [store] in Es.
    - injection Es as <-. discriminate.
    - destruct (store rest es); [|discriminate]. injection Es as <-.
      discriminate. }
  assert (Hw : forall o o' s', writeEscapedRune r st o = (o', Ret s') ->
                               runeBuffer s' <> []).
  { intros o o' s'. unfold writeEscapedRune.
    destruct (EncodeRune (runeBuffer st) r) as [[buf k]|[i m]] eqn:Ee;
      [|discriminate].
    intros Eq. injection Eq as _ <-. apply (Hkeep (buf, k) eq_refl). }
  unfold step in E.
  repeat match type of E with
         | context [if ?c then _ else _] => destruct c
         | context [match strings.SplitN ?s ?c ?k with _ => _ end] =>
           destruct (strings.SplitN s c k) as [|? [|? [|? ?]]]
         end;
    try discriminate E;
    repeat match type of E with
           | bind _ _ _ = _ =>
             let E1 := fresh "E" in
             apply bind_Ret_inv in E as (? & ? & E1 & E);
             try apply Hw in E1; try apply ret_inv in E1 as [_ ->]
           end;
    try apply ret_inv in E as [_ ->]; try apply Hw in E;
    subst; assumption.
Qed.

(** On a line of ASCII bytes the loop never panics. *)
Lemma run_ascii_no_panic {W} `{Writer W} re rs st (out out' : W) msg :
  Forall (fun nr => 0 <= snd nr <= rune1Max) rs ->
  runeBuffer st <> [] ->
  run re rs st out <> (out', Panic msg).
Proof.
  intros Hrs. revert st out.
  induction Hrs as [|[n r] rs Hr Hrs IH]; intros st out Hb.
  - discriminate.
  - cbn [run]. unfold bind.
    destruct (step re n r st out) as [w1 [st1|e|m]] eqn:E.
    + apply IH. now apply (step_keeps_runeBuffer re n r st out w1 st1 E).
    + discriminate.
    + now apply step_ascii_no_panic in E.
Qed.

(** X14: [renderLine] returns, with success or with an error, on every
    line made of ASCII bytes and with every writer: the panic of C1 needs a
    rune outside ASCII. *)
Lemma renderLine_ascii_returns {W} `{Writer W} re line (out : W) :
  Forall (fun c => b2z c < RuneSelf) (list_ascii_of_string line) ->
  exists out',
    renderLine re line out = (out', Ret tt)
    \/ exists err, renderLine re line out = (out', Err err).
Proof.
  intros Hl. unfold renderLine, bind.
  pose proof (run_ascii_no_panic re (range_string line) initial out) as Hn.
  destruct (run re (range_string line) initial out) as [w1 [st1|e|m]].
  - exists w1. unfold finish, fail, ret.
    destruct (lastBold st1 >? -1); [right; eexists; reflexivity|].
    destruct (lastCode st1 >? -1); [right; eexists; reflexivity|].
    destruct (lastLink st1 >? -1); [right; eexists; reflexivity|].
    now left.
  - exists w1. right. now exists e.
  - exfalso.
    apply (Hn w1 m); [now apply range_from_ascii | discriminate | reflexivity].
Qed.

(** * Further properties of the package *)

(** ** Bytes and runes of ASCII text *)

Lemma z2b_b2z (c : byte) : z2b (b2z c) = c.
Proof.
  unfold z2b, b2z. pose proof (N_ascii_bounded c) as Hb.
  rewrite Z.mod_small by lia. rewrite N2Z.id. apply ascii_N_embedding.
Qed.

Lemma encoding_ascii (c : byte) :
  is_ascii c = true -> encoding (b2z c) = [c].
Proof.
  unfold is_ascii, RuneSelf. intros Hc. apply Z.ltb_lt in Hc.
  pose proof (b2z_nonneg c). unfold encoding, uint32, rune1Max.
  rewrite Z.mod_small by lia.
  destruct (Z.leb_spec (b2z c) 0x7F); [|lia]. now rewrite z2b_b2z.
Qed.

Lemma range_from_ascii_cons (c : byte) (s : string) (n : Z) :
  is_ascii c = true ->
  range_from n 0 (String c s) = (n, b2z c) :: range_from (n + 1) 0 s.
Proof.
  unfold is_ascii. intros Hc. apply Z.ltb_lt in Hc.
  cbn [range_from]. now rewrite (DecodeRuneInString_ascii c s Hc).
Qed.

Lemma range_from_ascii_app (a b : string) (n : Z) :
  all_bytes is_ascii a = true ->
  range_from n 0 (a ++ b)
  = (range_from n 0 a ++ range_from (n + len a) 0 b)%list.
Proof.
  revert n. induction a as [|c a IH]; intros n Ha.
  - change (len "") with 0. now rewrite Z.add_0_r.
  - cbn [all_bytes] in Ha. apply andb_true_iff in Ha as [Hc Ha].
    change (String c a ++ b) with (String c (a ++ b)).
    rewrite !range_from_ascii_cons, IH, len_String by assumption.
    cbn [app]. now replace (n + (1 + len a)) with (n + 1 + len a) by lia.
Qed.

Lemma all_bytes_weaken (p q : byte -> bool) (s : string) :
  (forall c, p c = true -> q c = true) ->
  all_bytes p s = true -> all_bytes q s = true.
Proof.
  intros Hpq. induction s as [|c s IH]; [reflexivity|].
  cbn [all_bytes]. intros Hs. apply andb_true_iff in Hs as [Hc Hs].
  now rewrite (Hpq c Hc), IH.
Qed.

Lemma plain_byte_ascii (c : byte) : plain_byte c = true -> is_ascii c = true.
Proof.
  unfold plain_byte. intros Hc.
  repeat (apply andb_true_iff in Hc as [Hc ?]). exact Hc.
Qed.

Lemma code_byte_ascii (c : byte) : code_byte c = true -> is_ascii c = true.
Proof.
  unfold code_byte. intros Hc.
  repeat (apply andb_true_iff in Hc as [Hc ?]). exact Hc.
Qed.

Lemma link_byte_ascii (c : byte) : link_byte c = true -> is_ascii c = true.
Proof.
  unfold link_byte. intros Hc.
  repeat (apply andb_true_iff in Hc as [Hc ?]). exact Hc.
Qed.

(** ** The loop of [renderLine] over the parts of a line *)

Lemma run_str_nil {W} `{Writer W} re n st (out : W) :
  run_str re n "" st out = (out, Ret st).
Proof. reflexivity. Qed.

Lemma run_str_cons {W} `{Writer W} re n c s st (out : W) :
  is_ascii c = true ->
  run_str re n (String c s) st out
  = bind (step re n (b2z c) st) (run_str re (n + 1) s) out.
Proof.
  intros Hc. unfold run_str. now rewrite range_from_ascii_cons.
Qed.

Lemma run_str_app {W} `{Writer W} re n a b st (out : W) :
  all_bytes is_ascii a = true ->
  run_str re n (a ++ b) st out
  = bind (run_str re n a st) (run_str re (n + len a) b) out.
Proof.
  intros Ha. unfold run_str.
  now rewrite range_from_ascii_app, run_app.
Qed.

Lemma same_trackers_refl (st : locals) :
  one_byte_buffer st -> same_trackers st st.
Proof. intros Hb. now repeat split. Qed.

Lemma same_trackers_trans (st1 st2 st3 : locals) :
  same_trackers st1 st2 -> same_trackers st2 st3 -> same_trackers st1 st3.
Proof.
  intros (A1 & A2 & A3 & A4 & A5 & _) (B1 & B2 & B3 & B4 & B5 & Hb).
  repeat split; first [congruence | exact Hb].
Qed.

Lemma same_trackers_set_runeBuffer (st : locals) (c : byte) :
  same_trackers st (set_runeBuffer [c] st).
Proof. repeat split. now exists c. Qed.

(** ** The writer of the tests, byte by byte *)

Lemma Builder_HTMLEscape_pending (b pending : string) :
  template.HTMLEscape_from (W := Builder) pending b ""
  = pending ++ escaped b.
Proof.
  revert pending. induction b as [|c b IH]; intros pending.
  - cbn. now rewrite append_nil_r.
  - cbn [template.HTMLEscape_from escaped]. unfold escape_byte.
    destruct (template.html_entity c) as [html|].
    + unfold Write, Builder_Writer. cbn [fst].
      rewrite Builder_HTMLEscape_from. unfold Builder in *.
      rewrite (IH ""). cbn [append]. now rewrite append_assoc.
    + rewrite IH. rewrite append_assoc. reflexivity.
Qed.

Lemma Builder_HTMLEscape_escaped (b : string) (out : Builder) :
  template.HTMLEscape out b = out ++ escaped b.
Proof.
  rewrite Builder_HTMLEscape. unfold template.HTMLEscape.
  now rewrite Builder_HTMLEscape_pending.
Qed.

Lemma escaped_app (a b : string) : escaped (a ++ b) = escaped a ++ escaped b.
Proof.
  induction a as [|c a IH]; [reflexivity|].
  cbn [append escaped]. now rewrite IH, append_assoc.
Qed.

Lemma Builder_writeEscapedRune_ascii c st (out : Builder) :
  is_ascii c = true -> one_byte_buffer st ->
  writeEscapedRune (b2z c) st out
  = (out ++ escape_byte c, Ret (set_runeBuffer [c] st)).
Proof.
  intros Hc [b Hb]. unfold writeEscapedRune, EncodeRune.
  rewrite Hb, (encoding_ascii c Hc). cbn [store List.length].
  change (firstn (Z.to_nat (Z.of_nat 1)) [c]) with [c].
  rewrite Builder_HTMLEscape_escaped. cbn [string_of_list_ascii escaped].
  now rewrite append_nil_r.
Qed.

(** ** Single runes of the three modes *)

Ltac plain_facts H :=
  unfold plain_byte, code_byte, link_byte in H;
  repeat match type of H with
         | (_ && _) = true => let H' := fresh "Hc" in
                              apply andb_true_iff in H as [H H']
         end;
  repeat match goal with
         | H' : negb _ = true |- _ => apply negb_true_iff in H'
         end.

Lemma step_plain re n c st (out : Builder) :
  one_byte_buffer st ->
  lastEscape st <= -1 -> lastLink st <= -1 -> lastCode st <= -1 ->
  plain_byte c = true ->
  step re n (b2z c) st out
  = (out ++ escape_byte c, Ret (set_runeBuffer [c] st)).
Proof.
  intros Hb He Hl Hk Hc. plain_facts Hc. unfold step.
  destruct (Z.gtb_spec (lastEscape st) (-1)); [lia|].
  destruct (Z.gtb_spec (lastLink st) (-1)); [lia|].
  destruct (Z.gtb_spec (lastCode st) (-1)); [lia|].
  rewrite Hc0, Hc1, Hc2, Hc3.
  now apply Builder_writeEscapedRune_ascii.
Qed.

Lemma step_code_text re n c st (out : Builder) :
  one_byte_buffer st ->
  lastEscape st <= -1 -> lastLink st <= -1 -> lastCode st > -1 ->
  code_byte c = true ->
  step re n (b2z c) st out
  = (out ++ escape_byte c, Ret (set_runeBuffer [c] st)).
Proof.
  intros Hb He Hl Hk Hc. plain_facts Hc. unfold step.
  destruct (Z.gtb_spec (lastEscape st) (-1)); [lia|].
  destruct (Z.gtb_spec (lastLink st) (-1)); [lia|].
  destruct (Z.gtb_spec (lastCode st) (-1)); [|lia].
  rewrite Hc0, Hc1.
  now apply Builder_writeEscapedRune_ascii.
Qed.

Lemma step_close_bold re n st (out : Builder) :
  lastEscape st <= -1 -> lastLink st <= -1 -> lastCode st <= -1 ->
  0 <= lastBold st ->
  step re n (b2z "*"%char) st out
  = (out ++ boldTextEnd re, Ret (set_lastBold (-1) st)).
Proof.
  intros He Hl Hc Hb. unfold step.
  destruct (Z.gtb_spec (lastEscape st) (-1)); [lia|].
  destruct (Z.gtb_spec (lastLink st) (-1)); [lia|].
  destruct (Z.gtb_spec (lastCode st) (-1)); [lia|].
  change (b2z "*"%char =? b2z "\"%char) with false.
  change (b2z "*"%char =? b2z "*"%char) with true. cbv iota.
  destruct (Z.ltb_spec (lastBold st) 0); [lia | reflexivity].
Qed.

Lemma step_open_code re n st (out : Builder) :
  lastEscape st <= -1 -> lastLink st <= -1 -> lastCode st <= -1 ->
  step re n (b2z "`"%char) st out
  = (out ++ codeTextStart re, Ret (set_lastCode n st)).
Proof.
  intros He Hl Hc. unfold step.
  destruct (Z.gtb_spec (lastEscape st) (-1)); [lia|].
  destruct (Z.gtb_spec (lastLink st) (-1)); [lia|].
  destruct (Z.gtb_spec (lastCode st) (-1)); [lia|].
  reflexivity.
Qed.

Lemma step_close_code re n st (out : Builder) :
  lastEscape st <= -1 -> lastLink st <= -1 -> lastCode st > -1 ->
  step re n (b2z "`"%char) st out
  = (out ++ codeTextEnd re, Ret (set_lastCode (-1) st)).
Proof.
  intros He Hl Hc. unfold step.
  destruct (Z.gtb_spec (lastEscape st) (-1)); [lia|].
  destruct (Z.gtb_spec (lastLink st) (-1)); [lia|].
  destruct (Z.gtb_spec (lastCode st) (-1)); [|lia].
  reflexivity.
Qed.

Lemma step_open_link {W} `{Writer W} re n st (out : W) :
  lastEscape st <= -1 -> lastLink st <= -1 -> lastCode st <= -1 ->
  step re n (b2z "["%char) st out = (out, Ret (set_lastLink n st)).
Proof.
  intros He Hl Hc. unfold step.
  destruct (Z.gtb_spec (lastEscape st) (-1)); [lia|].
  destruct (Z.gtb_spec (lastLink st) (-1)); [lia|].
  destruct (Z.gtb_spec (lastCode st) (-1)); [lia|].
  reflexivity.
Qed.

(** ** Runs of text in the three modes *)

Lemma run_plain re s n st (out : Builder) :
  one_byte_buffer st ->
  lastEscape st <= -1 -> lastLink st <= -1 -> lastCode st <= -1 ->
  all_bytes plain_byte s = true ->
  exists st',
    run_str re n s st out = (out ++ escaped s, Ret st')
    /\ same_trackers st st'.
Proof.
  revert n st out. induction s as [|c s IH]; intros n st out Hb He Hl Hk Hs.
  - exists st. rewrite run_str_nil. cbn [escaped]. rewrite append_nil_r.
    split; [reflexivity | now apply same_trackers_refl].
  - cbn [all_bytes] in Hs. apply andb_true_iff in Hs as [Hc Hs].
    rewrite run_str_cons by now apply plain_byte_ascii.
    rewrite (bind_Ret _ _ _ _ _ (step_plain re n c st out Hb He Hl Hk Hc)).
    destruct (IH (n + 1) (set_runeBuffer [c] st) (out ++ escape_byte c))
      as (st' & E & S); try assumption; [now exists c|].
    exists st'. cbn [escaped]. rewrite <- append_assoc.
    split; [exact E|].
    exact (same_trackers_trans _ _ _ (same_trackers_set_runeBuffer st c) S).
Qed.

Lemma run_code_text re s n st (out : Builder) :
  one_byte_buffer st ->
  lastEscape st <= -1 -> lastLink st <= -1 -> lastCode st > -1 ->
  all_bytes code_byte s = true ->
  exists st',
    run_str re n s st out = (out ++ escaped s, Ret st')
    /\ same_trackers st st'.
Proof.
  revert n st out. induction s as [|c s IH]; intros n st out Hb He Hl Hk Hs.
  - exists st. rewrite run_str_nil. cbn [escaped]. rewrite append_nil_r.
    split; [reflexivity | now apply same_trackers_refl].
  - cbn [all_bytes] in Hs. apply andb_true_iff in Hs as [Hc Hs].
    rewrite run_str_cons by now apply code_byte_ascii.
    rewrite (bind_Ret _ _ _ _ _ (step_code_text re n c st out Hb He Hl Hk Hc)).
    destruct (IH (n + 1) (set_runeBuffer [c] st) (out ++ escape_byte c))
      as (st' & E & S); try assumption; [now exists c|].
    exists st'. cbn [escaped]. rewrite <- append_assoc.
    split; [exact E|].
    exact (same_trackers_trans _ _ _ (same_trackers_set_runeBuffer st c) S).
Qed.

Lemma AppendRune_ascii (p : string) (c : byte) :
  is_ascii c = true -> AppendRune p (b2z c) = p ++ String c "".
Proof. intros Hc. unfold AppendRune. now rewrite encoding_ascii. Qed.

Lemma run_link_text {W} `{Writer W} re s n st (out : W) :
  lastEscape st <= -1 -> lastLink st > -1 ->
  all_bytes link_byte s = true ->
  run_str re n s st out
  = (out, Ret (set_linkContent (linkContent st ++ s) st)).
Proof.
  revert n st. induction s as [|c s IH]; intros n st He Hl Hs.
  - rewrite run_str_nil, append_nil_r. now destruct st.
  - cbn [all_bytes] in Hs. apply andb_true_iff in Hs as [Hc Hs].
    pose proof (link_byte_ascii c Hc) as Ha.
    rewrite run_str_cons by assumption. plain_facts Hc.
    apply Z.eqb_neq in Hc0, Hc1.
    rewrite (bind_Ret _ _ _ _ _
               (step_inside_link re n (b2z c) st out He Hl Hc1 Hc0)).
    rewrite IH by assumption. rewrite AppendRune_ascii by assumption.
    cbn [linkContent set_linkContent]. unfold set_linkContent.
    cbn [runeBuffer lastEscape lastBold lastCode lastLink linkContent].
    now rewrite append_assoc.
Qed.

(** ** Whole lines *)

Lemma html_escaped (s : string) : html s = escaped s.
Proof. unfold html. now rewrite Builder_HTMLEscape_escaped. Qed.

Lemma one_byte_buffer_initial : one_byte_buffer initial.
Proof. now exists "004"%char. Qed.

Lemma finish_closed {W} `{Writer W} st (out : W) :
  lastBold st <= -1 -> lastCode st <= -1 -> lastLink st <= -1 ->
  finish st out = (out, Ret tt).
Proof.
  intros Hb Hc Hl. unfold finish.
  destruct (Z.gtb_spec (lastBold st) (-1)); [lia|].
  destruct (Z.gtb_spec (lastCode st) (-1)); [lia|].
  destruct (Z.gtb_spec (lastLink st) (-1)); [lia|].
  reflexivity.
Qed.

Lemma renderLine_run_str {W} `{Writer W} re line (out : W) :
  renderLine re line out = bind (run_str re 0 line initial) finish out.
Proof. reflexivity. Qed.

Lemma plain_is_ascii (s : string) :
  all_bytes plain_byte s = true -> all_bytes is_ascii s = true.
Proof. apply all_bytes_weaken, plain_byte_ascii. Qed.

Lemma code_is_ascii (s : string) :
  all_bytes code_byte s = true -> all_bytes is_ascii s = true.
Proof. apply all_bytes_weaken, code_byte_ascii. Qed.

Lemma link_is_ascii (s : string) :
  all_bytes link_byte s = true -> all_bytes is_ascii s = true.
Proof. apply all_bytes_weaken, link_byte_ascii. Qed.

(** X1: a line of ASCII bytes without backslash, star, backtick and opening
    bracket renders with success, and what is written is the line
    HTML-escaped. *)
Theorem renderLine_plain_text re (line : string) (out : Builder) :
  all_bytes plain_byte line = true ->
  renderLine re line out = (out ++ html line, Ret tt).
Proof.
  intros Hl. rewrite renderLine_run_str, html_escaped.
  destruct (run_plain re line 0 initial out one_byte_buffer_initial)
    as (st & E & (_ & Sb & Sc & Sl & _)); try (cbn; lia); [assumption|].
  rewrite (bind_Ret _ _ _ _ _ E).
  apply finish_closed; rewrite ?Sb, ?Sc, ?Sl; cbn; lia.
Qed.

Lemma renderLine_plain_text_witness :
  renderLine (W := Builder) NewRenderer "1 < 2 & ]" "<p>"
  = ("<p>" ++ html "1 < 2 & ]", Ret tt).
Proof.
  apply (renderLine_plain_text NewRenderer "1 < 2 & ]" "<p>").
  reflexivity.
Defined.

Ltac trk :=
  unfold one_byte_buffer, same_trackers in *;
  cbn [lastEscape lastBold lastCode lastLink linkContent runeBuffer
       set_lastEscape set_lastBold set_lastCode set_lastLink
       set_linkContent set_runeBuffer initial] in *;
  first [assumption | lia | tauto | (eexists; reflexivity)].

Lemma all_bytes_app (p : byte -> bool) (a b : string) :
  all_bytes p (a ++ b) = all_bytes p a && all_bytes p b.
Proof.
  induction a as [|c a IH]; [reflexivity|].
  cbn [append all_bytes]. now rewrite IH, andb_assoc.
Qed.

(** X2: plain text, a star, plain text, a star, plain text: the middle part
    is wrapped in the bold markers and the line succeeds. *)
Theorem renderLine_bold_span re (pre mid post : string) (out : Builder) :
  all_bytes plain_byte pre = true ->
  all_bytes plain_byte mid = true ->
  all_bytes plain_byte post = true ->
  renderLine re (pre ++ "*" ++ mid ++ "*" ++ post) out
  = (out ++ html pre ++ boldTextStart re ++ html mid ++ boldTextEnd re
         ++ html post,
     Ret tt).
Proof.
  intros Hpre Hmid Hpost. pose proof (len_nonneg pre) as Hn.
  rewrite renderLine_run_str, !html_escaped.
  assert (exists st,
             run_str re 0 (pre ++ "*" ++ mid ++ "*" ++ post) initial out
             = (out ++ escaped pre ++ boldTextStart re ++ escaped mid
                    ++ boldTextEnd re ++ escaped post, Ret st)
             /\ lastBold st <= -1 /\ lastCode st <= -1 /\ lastLink st <= -1)
    as (st & E & Hb & Hc & Hl).
  { destruct (run_plain re pre 0 initial out one_byte_buffer_initial)
      as (st1 & E1 & S1); try trk.
    rewrite run_str_app, (bind_Ret _ _ _ _ _ E1) by now apply plain_is_ascii.
    cbn [append]. rewrite run_str_cons by reflexivity.
    rewrite (bind_Ret _ _ _ _ _
               (step_open_bold re _ st1 _ ltac:(trk) ltac:(trk) ltac:(trk)
                  ltac:(trk))).
    destruct (run_plain re mid (0 + len pre + 1)
                (set_lastBold (0 + len pre) st1)
                ((out ++ escaped pre) ++ boldTextStart re))
      as (st2 & E2 & S2); try trk.
    rewrite run_str_app, (bind_Ret _ _ _ _ _ E2) by now apply plain_is_ascii.
    cbn [append]. rewrite run_str_cons by reflexivity.
    rewrite (bind_Ret _ _ _ _ _
               (step_close_bold re _ st2 _ ltac:(trk) ltac:(trk) ltac:(trk)
                  ltac:(trk))).
    destruct (run_plain re post (0 + len pre + 1 + len mid + 1)
                (set_lastBold (-1) st2)
                ((((out ++ escaped pre) ++ boldTextStart re) ++ escaped mid)
                 ++ boldTextEnd re))
      as (st3 & E3 & S3); try trk.
    exists st3. rewrite E3, !append_assoc.
    repeat split; try reflexivity; trk. }
  rewrite (bind_Ret _ _ _ _ _ E). now apply finish_closed.
Qed.

Lemma renderLine_bold_span_witness :
  renderLine (W := Builder) NewRenderer ("a " ++ "*" ++ "b<c" ++ "*" ++ " d")
    ""
  = ("" ++ html "a " ++ "<strong>" ++ html "b<c" ++ "</strong>" ++ html " d",
     Ret tt).
Proof.
  apply (renderLine_bold_span NewRenderer "a " "b<c" " d" ""); reflexivity.
Defined.

(** X3: inside an inline code span only the backslash and the backtick are
    special: ASCII text without them, stars and brackets included, is written
    HTML-escaped between the code markers. *)
Theorem renderLine_code_span re (pre mid post : string) (out : Builder) :
  all_bytes plain_byte pre = true ->
  all_bytes code_byte mid = true ->
  all_bytes plain_byte post = true ->
  renderLine re (pre ++ "`" ++ mid ++ "`" ++ post) out
  = (out ++ html pre ++ codeTextStart re ++ html mid ++ codeTextEnd re
         ++ html post,
     Ret tt).
Proof.
  intros Hpre Hmid Hpost. pose proof (len_nonneg pre) as Hn.
  rewrite renderLine_run_str, !html_escaped.
  assert (exists st,
             run_str re 0 (pre ++ "`" ++ mid ++ "`" ++ post) initial out
             = (out ++ escaped pre ++ codeTextStart re ++ escaped mid
                    ++ codeTextEnd re ++ escaped post, Ret st)
             /\ lastBold st <= -1 /\ lastCode st <= -1 /\ lastLink st <= -1)
    as (st & E & Hb & Hc & Hl).
  { destruct (run_plain re pre 0 initial out one_byte_buffer_initial)
      as (st1 & E1 & S1); try trk.
    rewrite run_str_app, (bind_Ret _ _ _ _ _ E1) by now apply plain_is_ascii.
    cbn [append]. rewrite run_str_cons by reflexivity.
    rewrite (bind_Ret _ _ _ _ _
               (step_open_code re _ st1 _ ltac:(trk) ltac:(trk) ltac:(trk))).
    destruct (run_code_text re mid (0 + len pre + 1)
                (set_lastCode (0 + len pre) st1)
                ((out ++ escaped pre) ++ codeTextStart re))
      as (st2 & E2 & S2); try trk.
    rewrite run_str_app, (bind_Ret _ _ _ _ _ E2) by now apply code_is_ascii.
    cbn [append]. rewrite run_str_cons by reflexivity.
    rewrite (bind_Ret _ _ _ _ _
               (step_close_code re _ st2 _ ltac:(trk) ltac:(trk) ltac:(trk))).
    destruct (run_plain re post (0 + len pre + 1 + len mid + 1)
                (set_lastCode (-1) st2)
                ((((out ++ escaped pre) ++ codeTextStart re) ++ escaped mid)
                 ++ codeTextEnd re))
      as (st3 & E3 & S3); try trk.
    exists st3. rewrite E3, !append_assoc.
    repeat split; try reflexivity; trk. }
  rewrite (bind_Ret _ _ _ _ _ E). now apply finish_closed.
Qed.

Lemma renderLine_code_span_witness :
  renderLine (W := Builder) NewRenderer
    ("see " ++ "`" ++ "p := *b[0]" ++ "`" ++ ".") ""
  = ("" ++ html "see " ++ "<code>" ++ html "p := *b[0]" ++ "</code>"
        ++ html ".",
     Ret tt).
Proof.
  apply (renderLine_code_span NewRenderer "see " "p := *b[0]" "." "");
    reflexivity.
Defined.

(** X4: a link between plain text.  The ASCII text between the brackets,
    free of backslash and closing bracket, is split at its first space; the
    line succeeds and the link template is written in place, the stars and
    backticks of the link left to the template. *)
Theorem renderLine_link re (pre url label post : string) (out : Builder) :
  all_bytes plain_byte pre = true ->
  all_bytes link_byte url = true ->
  strings.Contains url " "%char = false ->
  all_bytes link_byte label = true ->
  all_bytes plain_byte post = true ->
  renderLine re (pre ++ "[" ++ url ++ " " ++ label ++ "]" ++ post) out
  = (out ++ html pre
         ++ ("<a href=" ++ dquote
             ++ template.attrEscaper
                  (template.urlNormalizer (template.urlFilter url))
             ++ dquote ++ ">" ++ template.htmlEscaper label ++ "</a>")
         ++ html post,
     Ret tt).
Proof.
  intros Hpre Hurl Hsp Hlabel Hpost. pose proof (len_nonneg pre) as Hn.
  rewrite renderLine_run_str, !html_escaped.
  change ("<a href=" ++ dquote
          ++ template.attrEscaper
               (template.urlNormalizer (template.urlFilter url))
          ++ dquote ++ ">" ++ template.htmlEscaper label ++ "</a>")
    with (link_html url label).
  assert (Hcontent : all_bytes link_byte (url ++ " " ++ label) = true).
  { rewrite all_bytes_app, Hurl. cbn [append all_bytes]. now rewrite Hlabel. }
  assert (exists st,
             run_str re 0 (pre ++ "[" ++ url ++ " " ++ label ++ "]" ++ post)
               initial out
             = (out ++ escaped pre ++ link_html url label ++ escaped post,
                Ret st)
             /\ lastBold st <= -1 /\ lastCode st <= -1 /\ lastLink st <= -1)
    as (st & E & Hb & Hc & Hl).
  { destruct (run_plain re pre 0 initial out one_byte_buffer_initial)
      as (st1 & E1 & S1); try trk.
    rewrite run_str_app, (bind_Ret _ _ _ _ _ E1) by now apply plain_is_ascii.
    cbn [append]. rewrite run_str_cons by reflexivity.
    rewrite (bind_Ret _ _ _ _ _
               (step_open_link re _ st1 _ ltac:(trk) ltac:(trk) ltac:(trk))).
    replace (url ++ String " " (label ++ String "]" post))
      with ((url ++ " " ++ label) ++ String "]" post)
      by (rewrite !append_assoc; reflexivity).
    rewrite run_str_app by now apply link_is_ascii.
    rewrite (bind_Ret _ _ _ _ _
               (run_link_text re (url ++ " " ++ label) _
                  (set_lastLink (0 + len pre) st1) _
                  ltac:(trk) ltac:(trk) Hcontent)).
    rewrite run_str_cons by reflexivity.
    match goal with
    | |- context [bind (step re ?n _ ?s) _ ?o] =>
      assert (H1 : lastEscape s <= -1) by trk;
      assert (H2 : lastLink s > -1) by trk;
      assert (H3 : linkContent s = url ++ String " "%char label)
        by (cbn [linkContent set_linkContent set_lastLink];
            destruct S1 as (_ & _ & _ & _ & -> & _); reflexivity);
      rewrite (bind_Ret _ _ _ _ _
                 (step_close_link_space re n s o url label H1 H2 H3 Hsp))
    end.
    match goal with
    | |- context [run_str re ?n post ?s ?o] =>
      destruct (run_plain re post n s o) as (st3 & E3 & S3); try trk
    end.
    exists st3. rewrite E3, !append_assoc.
    repeat split; try reflexivity; trk. }
  rewrite (bind_Ret _ _ _ _ _ E). now apply finish_closed.
Qed.

Lemma renderLine_link_witness :
  renderLine (W := Builder) NewRenderer
    ("go " ++ "[" ++ "https://res.nz/" ++ " " ++ "the *site*" ++ "]" ++ "!")
    ""
  = ("" ++ html "go "
        ++ ("<a href=" ++ dquote
            ++ template.attrEscaper
                 (template.urlNormalizer
                    (template.urlFilter "https://res.nz/"))
            ++ dquote ++ ">" ++ template.htmlEscaper "the *site*" ++ "</a>")
        ++ html "!",
     Ret tt).
Proof.
  apply (renderLine_link NewRenderer "go " "https://res.nz/" "the *site*" "!"
           ""); reflexivity.
Defined.

Lemma finish_unclosed_code {W} `{Writer W} st (out : W) :
  lastBold st <= -1 -> lastCode st > -1 ->
  finish st out
  = (out, Err ("unclosed code text (`) at position: "
               ++ fmt.itoa (lastCode st))).
Proof.
  intros Hb Hc. unfold finish.
  destruct (Z.gtb_spec (lastBold st) (-1)); [lia|].
  destruct (Z.gtb_spec (lastCode st) (-1)); [reflexivity | lia].
Qed.

Lemma finish_unclosed_link {W} `{Writer W} st (out : W) :
  lastBold st <= -1 -> lastCode st <= -1 -> lastLink st > -1 ->
  finish st out
  = (out, Err ("unclosed link ([) at position: " ++ fmt.itoa (lastLink st))).
Proof.
  intros Hb Hc Hl. unfold finish.
  destruct (Z.gtb_spec (lastBold st) (-1)); [lia|].
  destruct (Z.gtb_spec (lastCode st) (-1)); [lia|].
  destruct (Z.gtb_spec (lastLink st) (-1)); [reflexivity | lia].
Qed.

Lemma renderLine_unclosed_bold re (pre post : string) (out : Builder) :
  all_bytes plain_byte pre = true ->
  all_bytes plain_byte post = true ->
  renderLine re (pre ++ "*" ++ post) out
  = (out ++ html pre ++ boldTextStart re ++ html post,
     Err ("unclosed bold text (*) at position: " ++ fmt.itoa (len pre))).
Proof.
  intros Hpre Hpost. pose proof (len_nonneg pre) as Hn.
  rewrite renderLine_run_str, !html_escaped.
  destruct (run_plain re pre 0 initial out one_byte_buffer_initial)
    as (st1 & E1 & S1); try trk.
  destruct (run_plain re post (0 + len pre + 1)
              (set_lastBold (0 + len pre) st1)
              ((out ++ escaped pre) ++ boldTextStart re))
    as (st2 & E2 & S2); try trk.
  assert (E : run_str re 0 (pre ++ "*" ++ post) initial out
              = (out ++ escaped pre ++ boldTextStart re ++ escaped post,
                 Ret st2)).
  { rewrite run_str_app, (bind_Ret _ _ _ _ _ E1) by now apply plain_is_ascii.
    cbn [append]. rewrite run_str_cons by reflexivity.
    rewrite (bind_Ret _ _ _ _ _
               (step_open_bold re _ st1 _ ltac:(trk) ltac:(trk) ltac:(trk)
                  ltac:(trk))).
    now rewrite E2, !append_assoc. }
  rewrite (bind_Ret _ _ _ _ _ E).
  rewrite finish_unclosed_bold by trk.
  replace (lastBold st2) with (len pre) by trk. reflexivity.
Qed.

Lemma renderLine_unclosed_code re (pre post : string) (out : Builder) :
  all_bytes plain_byte pre = true ->
  all_bytes code_byte post = true ->
  renderLine re (pre ++ "`" ++ post) out
  = (out ++ html pre ++ codeTextStart re ++ html post,
     Err ("unclosed code text (`) at position: " ++ fmt.itoa (len pre))).
Proof.
  intros Hpre Hpost. pose proof (len_nonneg pre) as Hn.
  rewrite renderLine_run_str, !html_escaped.
  destruct (run_plain re pre 0 initial out one_byte_buffer_initial)
    as (st1 & E1 & S1); try trk.
  destruct (run_code_text re post (0 + len pre + 1)
              (set_lastCode (0 + len pre) st1)
              ((out ++ escaped pre) ++ codeTextStart re))
    as (st2 & E2 & S2); try trk.
  assert (E : run_str re 0 (pre ++ "`" ++ post) initial out
              = (out ++ escaped pre ++ codeTextStart re ++ escaped post,
                 Ret st2)).
  { rewrite run_str_app, (bind_Ret _ _ _ _ _ E1) by now apply plain_is_ascii.
    cbn [append]. rewrite run_str_cons by reflexivity.
    rewrite (bind_Ret _ _ _ _ _
               (step_open_code re _ st1 _ ltac:(trk) ltac:(trk) ltac:(trk))).
    now rewrite E2, !append_assoc. }
  rewrite (bind_Ret _ _ _ _ _ E).
  rewrite finish_unclosed_code by trk.
  replace (lastCode st2) with (len pre) by trk. reflexivity.
Qed.

Lemma renderLine_unclosed_link re (pre post : string) (out : Builder) :
  all_bytes plain_byte pre = true ->
  all_bytes link_byte post = true ->
  renderLine re (pre ++ "[" ++ post) out
  = (out ++ html pre,
     Err ("unclosed link ([) at position: " ++ fmt.itoa (len pre))).
Proof.
  intros Hpre Hpost. pose proof (len_nonneg pre) as Hn.
  rewrite renderLine_run_str, !html_escaped.
  destruct (run_plain re pre 0 initial out one_byte_buffer_initial)
    as (st1 & E1 & S1); try trk.
  assert (E : run_str re 0 (pre ++ "[" ++ post) initial out
              = (out ++ escaped pre,
                 Ret (set_linkContent
                        (linkContent (set_lastLink (0 + len pre) st1) ++ post)
                        (set_lastLink (0 + len pre) st1)))).
  { rewrite run_str_app, (bind_Ret _ _ _ _ _ E1) by now apply plain_is_ascii.
    cbn [append]. rewrite run_str_cons by reflexivity.
    rewrite (bind_Ret _ _ _ _ _
               (step_open_link re _ st1 _ ltac:(trk) ltac:(trk) ltac:(trk))).
    apply run_link_text; trk. }
  rewrite (bind_Ret _ _ _ _ _ E).
  rewrite finish_unclosed_link by trk. reflexivity.
Qed.

(** X5: plain text, then a star, a backtick or an opening bracket, then to
    the end of the line only text that is inert after that opener: plain
    text after the star, ASCII bytes other than backslash and backtick after
    the backtick, ASCII bytes other than backslash and closing bracket after
    the bracket.  The line fails with the unclosed bold, code or link error,
    and the error carries the byte offset of the opener, the length of the
    text before it.  What was written stays written; the text after the
    bracket is not written. *)
Theorem unclosed_opener_reports_offset re (pre post : string) (out : Builder) :
  all_bytes plain_byte pre = true ->
  (all_bytes plain_byte post = true ->
   renderLine re (pre ++ "*" ++ post) out
   = (out ++ html pre ++ boldTextStart re ++ html post,
      Err ("unclosed bold text (*) at position: " ++ fmt.itoa (len pre))))
  /\ (all_bytes code_byte post = true ->
      renderLine re (pre ++ "`" ++ post) out
      = (out ++ html pre ++ codeTextStart re ++ html post,
         Err ("unclosed code text (`) at position: " ++ fmt.itoa (len pre))))
  /\ (all_bytes link_byte post = true ->
      renderLine re (pre ++ "[" ++ post) out
      = (out ++ html pre,
         Err ("unclosed link ([) at position: " ++ fmt.itoa (len pre)))).
Proof.
  intros Hpre. split; [|split]; intros Hpost.
  - now apply renderLine_unclosed_bold.
  - now apply renderLine_unclosed_code.
  - now apply renderLine_unclosed_link.
Qed.

Lemma unclosed_opener_reports_offset_witness :
  renderLine (W := Builder) NewRenderer ("a " ++ "*" ++ "unclosed bold") ""
  = ("" ++ html "a " ++ "<strong>" ++ html "unclosed bold",
     Err ("unclosed bold text (*) at position: " ++ fmt.itoa (len "a ")))
  /\ renderLine (W := Builder) NewRenderer ("a " ++ "`" ++ "code *x") ""
     = ("" ++ html "a " ++ "<code>" ++ html "code *x",
        Err ("unclosed code text (`) at position: " ++ fmt.itoa (len "a ")))
  /\ renderLine (W := Builder) NewRenderer ("a " ++ "[" ++ "1 2") ""
     = ("" ++ html "a ",
        Err ("unclosed link ([) at position: " ++ fmt.itoa (len "a "))).
Proof.
  pose proof (unclosed_opener_reports_offset NewRenderer "a ") as T.
  split; [|split].
  - apply (proj1 (T "unclosed bold" "" eq_refl)). reflexivity.
  - apply (proj1 (proj2 (T "code *x" "" eq_refl))). reflexivity.
  - apply (proj2 (proj2 (T "1 2" "" eq_refl))). reflexivity.
Defined.

(** ** A builder is only appended to *)

Lemma appends_ret {A} (a : A) : appends (ret a).
Proof. intros out. cbn. now rewrite append_nil_r. Qed.

Lemma appends_fail {A} (e : error) : appends (@fail Builder A e).
Proof. intros out. cbn. now rewrite append_nil_r. Qed.

Lemma appends_panic {A} (msg : string) : appends (@panic Builder A msg).
Proof. intros out. cbn. now rewrite append_nil_r. Qed.

Lemma appends_write (p : string) : appends (write_or_return p).
Proof. intros out. reflexivity. Qed.

Lemma appends_bind {A B} (m : M Builder A) (f : A -> M Builder B) :
  appends m -> (forall a, appends (f a)) -> appends (bind m f).
Proof.
  intros Hm Hf out. unfold bind. rewrite (Hm out).
  destruct (m "") as [o [a|e|msg]]; cbn [fst snd].
  - rewrite (Hf a (out ++ o)), (Hf a o). cbn [fst snd].
    now rewrite append_assoc.
  - reflexivity.
  - reflexivity.
Qed.

Lemma appends_HTMLEscape {A} (b : string) (a : A) :
  appends (fun out : Builder => (template.HTMLEscape out b, Ret a)).
Proof.
  intros out. cbn [fst snd]. now rewrite Builder_HTMLEscape.
Qed.

Lemma appends_writeEscapedRune r st : appends (writeEscapedRune r st).
Proof.
  unfold writeEscapedRune.
  destruct (EncodeRune (runeBuffer st) r) as [[buf k]|[i m]].
  - apply appends_HTMLEscape.
  - apply appends_panic.
Qed.

Ltac appends_tac :=
  repeat first
    [ apply appends_ret | apply appends_fail | apply appends_panic
    | apply appends_write | apply appends_writeEscapedRune
    | apply appends_HTMLEscape
    | apply appends_bind; [|intros ?] ].

Lemma appends_linkTemplate_Execute l : appends (linkTemplate_Execute l).
Proof. unfold linkTemplate_Execute. appends_tac. Qed.

Lemma appends_step re n r st : appends (step re n r st).
Proof.
  unfold step.
  repeat match goal with
         | |- context [if ?c then _ else _] => destruct c
         | |- context [match strings.SplitN ?s ?c ?k with _ => _ end] =>
           destruct (strings.SplitN s c k) as [|? [|? [|? ?]]]
         end;
    cbv zeta; appends_tac; apply appends_linkTemplate_Execute.
Qed.

Lemma appends_run re rs st : appends (run re rs st).
Proof.
  revert st. induction rs as [|[n r] rs IH]; intros st; cbn [run].
  - apply appends_ret.
  - apply appends_bind; [apply appends_step | intros st'; apply IH].
Qed.

Lemma appends_finish st : appends (finish st).
Proof.
  unfold finish.
  repeat match goal with
         | |- context [if ?c then _ else _] => destruct c
         end; appends_tac.
Qed.

Lemma appends_renderLine re line : appends (renderLine re line).
Proof.
  unfold renderLine. apply appends_bind; [apply appends_run|].
  intros st. apply appends_finish.
Qed.

Lemma appends_scan_step re line lineCount k :
  appends (scan_step re line lineCount k).
Proof.
  unfold scan_step.
  repeat match goal with
         | |- context [if ?c then _ else _] => destruct c
         end; appends_tac.
  intros out. rewrite (appends_renderLine re line out).
  unfold Builder in *.
  destruct (renderLine re line "") as [o [u|e|m]]; reflexivity.
Qed.

Lemma appends_scan_loop re lines lineCount k :
  appends (scan_loop re lines lineCount k).
Proof.
  revert lineCount k.
  induction lines as [|l lines IH]; intros lineCount k; cbn [scan_loop].
  - apply appends_ret.
  - apply appends_bind; [apply appends_scan_step | intros k'; apply IH].
Qed.

Lemma fst_renderLine re line (out : Builder) :
  fst (renderLine re line out) = out ++ fst (renderLine re line "").
Proof. now rewrite (appends_renderLine re line out). Qed.

(** X6: writing to a [strings.Builder], [Render] only appends: what the
    builder held stays in front, and neither the bytes added nor the result
    depend on it. *)
Theorem Render_only_appends re (input : string) (out : Builder) :
  Render re input out
  = (out ++ fst (Render re input ""), snd (Render re input "")).
Proof.
  revert out. change (appends (Render re input)). unfold Render.
  destruct (bufio.ScanLines input) as [lines [err|]];
    (apply appends_bind; [apply appends_scan_loop | intros k]).
  - apply appends_fail.
  - destruct (negb (k =? -1)); appends_tac.
Qed.

(** ** Blocks of a document *)









(** ** The scanner on joined inputs *)

Lemma unterminated_cons (c d : byte) (s : string) :
  unterminated (String c (String d s)) = unterminated (String d s).
Proof. reflexivity. Qed.

Lemma len_zero_iff (s : string) : (len s =? 0) = true <-> s = "".
Proof.
  destruct s as [|c s].
  - split; reflexivity.
  - rewrite len_String. pose proof (len_nonneg s).
    split; [|discriminate]. intros E. apply Z.eqb_eq in E. lia.
Qed.

Lemma append_not_nil (cur : string) (c : byte) : cur ++ String c "" <> "".
Proof. destruct cur; discriminate. Qed.

(** Scanning an input, a newline and a second input gives the lines of the
    first and then those of the second, when the first input ends inside a
    line. *)
Lemma scan_from_join (a b cur : string) :
  (a = "" /\ cur <> "") \/ unterminated a = true ->
  bufio.scan_from cur (a ++ String newline_char b)
  = match bufio.scan_from cur a with
    | (la, None) =>
      let '(lb, eb) := bufio.scan_from "" b in ((la ++ lb)%list, eb)
    | (la, Some e) => (la, Some e)
    end.
Proof.
  revert cur. induction a as [|c a IH]; intros cur Ha.
  - destruct Ha as [[_ Hcur]|Hu]; [|discriminate Hu].
    cbn [append bufio.scan_from]. rewrite Ascii.eqb_refl.
    destruct (len cur =? 0) eqn:E0; [apply len_zero_iff in E0; contradiction|].
    destruct (bufio.MaxScanTokenSize <=? len cur); [reflexivity|].
    destruct (bufio.scan_from "" b) as [lb eb]. reflexivity.
  - destruct Ha as [[Hnil _]|Hu]; [discriminate Hnil|].
    cbn [append bufio.scan_from].
    destruct (Ascii.eqb_spec c newline_char) as [->|Hc].
    + destruct (bufio.MaxScanTokenSize <=? len cur); [reflexivity|].
      destruct a as [|d a]; [discriminate Hu|].
      rewrite unterminated_cons in Hu.
      rewrite (IH "" (or_intror Hu)).
      destruct (bufio.scan_from "" (String d a)) as [la [e|]];
        [reflexivity|].
      destruct (bufio.scan_from "" b) as [lb eb]. reflexivity.
    + apply IH. destruct a as [|d a].
      * left. split; [reflexivity | apply append_not_nil].
      * right. exact Hu.
Qed.

Lemma ScanLines_join (a b : string) :
  unterminated a = true ->
  bufio.ScanLines (a ++ String newline_char b)
  = match bufio.ScanLines a with
    | (la, None) =>
      let '(lb, eb) := bufio.ScanLines b in ((la ++ lb)%list, eb)
    | (la, Some e) => (la, Some e)
    end.
Proof. intros Ha. apply scan_from_join. now right. Qed.

(** X9: a newline at the end of the input changes nothing: an input that
    ends inside a line and the same input with a final newline render the
    same. *)
Theorem Render_final_newline {W : Type} {HW : Writer W} re (input : string)
    (out : W) :
  unterminated input = true ->
  Render re (input ++ String newline_char "") out = Render re input out.
Proof.
  intros Hu. unfold Render. rewrite (ScanLines_join input "" Hu).
  destruct (bufio.ScanLines input) as [lines [e|]]; [reflexivity|].
  cbn [bufio.ScanLines bufio.scan_from]. change (len "" =? 0) with true.
  cbv iota. now rewrite app_nil_r.
Qed.

Lemma Render_final_newline_witness :
  Render (W := Builder) NewRenderer
    (("a" ++ nl ++ "*b*") ++ String newline_char "") ""
  = Render (W := Builder) NewRenderer ("a" ++ nl ++ "*b*") "".
Proof.
  apply (Render_final_newline NewRenderer ("a" ++ nl ++ "*b*") "").
  reflexivity.
Defined.

(** ** Line numbers and the block mode *)

(** Line numbers show in error messages only: a line that is processed with
    success from one line count and one fence line is processed the same way
    from any other, the block mode being the same. *)
Lemma scan_step_lineCount {W} `{Writer W} re line n1 n2 k1 k2
    (out out' : W) k1' :
  1 <= n1 -> 1 <= n2 -> InCodeFence k1 = InCodeFence k2 ->
  scan_step re line n1 k1 out = (out', Ret k1') ->
  exists k2',
    scan_step re line n2 k2 out = (out', Ret k2')
    /\ InCodeFence k1' = InCodeFence k2'.
Proof.
  unfold InCodeFence. intros H1 H2 Hk E.
  apply (f_equal negb) in Hk. rewrite !negb_involutive in Hk.
  unfold scan_step in *. rewrite <- Hk.
  destruct (line =? fence)%string.
  - destruct (k1 =? -1) eqn:Ek;
      apply bind_Ret_inv in E as (w1 & u & E1 & E2);
      apply ret_inv in E2 as [-> ->];
      rewrite (bind_Ret _ _ _ _ _ E1).
    + exists n2. split; [reflexivity|].
      destruct (Z.eqb_spec n1 (-1)); [lia|].
      destruct (Z.eqb_spec n2 (-1)); [lia | reflexivity].
    + exists (-1). split; reflexivity.
  - destruct ((k1 =? -1) && negb (line =? "")%string).
    + apply bind_Ret_inv in E as (w1 & u1 & E1 & E).
      apply bind_Ret_inv in E as (w2 & u2 & E2 & E).
      apply bind_Ret_inv in E as (w3 & u3 & E3 & E).
      apply ret_inv in E as [-> ->].
      exists k2. rewrite (bind_Ret _ _ _ _ _ E1).
      assert (E2' : renderLine re line w1 = (w2, Ret u2)).
      { destruct (renderLine re line w1) as [w [u|e|m]]; try discriminate E2.
        exact E2. }
      unfold bind at 1. rewrite E2'.
      rewrite (bind_Ret _ _ _ _ _ E3). split; [reflexivity|].
      now rewrite Hk.
    + apply bind_Ret_inv in E as (w1 & u1 & E1 & E).
      apply bind_Ret_inv in E as (w2 & u2 & E2 & E).
      apply ret_inv in E as [-> ->].
      exists k2. rewrite (bind_Ret _ _ _ _ _ E1), (bind_Ret _ _ _ _ _ E2).
      split; [reflexivity|]. now rewrite Hk.
Qed.

Lemma scan_loop_lineCount {W} `{Writer W} re lines n1 n2 k1 k2
    (out out' : W) k1' :
  0 <= n1 -> 0 <= n2 -> InCodeFence k1 = InCodeFence k2 ->
  scan_loop re lines n1 k1 out = (out', Ret k1') ->
  exists k2',
    scan_loop re lines n2 k2 out = (out', Ret k2')
    /\ InCodeFence k1' = InCodeFence k2'.
Proof.
  revert n1 n2 k1 k2 out.
  induction lines as [|l lines IH]; intros n1 n2 k1 k2 out H1 H2 Hk E.
  - apply ret_inv in E as [-> ->]. exists k2. now split.
  - cbn [scan_loop] in *.
    apply bind_Ret_inv in E as (w1 & j1 & E1 & E2).
    destruct (scan_step_lineCount re l (n1 + 1) (n2 + 1) k1 k2 out w1 j1
                ltac:(lia) ltac:(lia) Hk E1) as (j2 & F1 & Hj).
    rewrite (bind_Ret _ _ _ _ _ F1).
    apply (IH (n1 + 1) (n2 + 1) j1 j2 w1); (lia || assumption).
Qed.

Lemma InCodeFence_false (k : Z) : InCodeFence k = false -> k = -1.
Proof.
  unfold InCodeFence. destruct (Z.eqb_spec k (-1)); [easy | discriminate].
Qed.

Lemma Render_Ret_inv {W} `{Writer W} re input (out out' : W) :
  Render re input out = (out', Ret tt) ->
  exists lines,
    bufio.ScanLines input = (lines, None)
    /\ scan_loop re lines 0 (-1) out = (out', Ret (-1)).
Proof.
  unfold Render. destruct (bufio.ScanLines input) as [lines [e|]]; intros E;
    apply bind_Ret_inv in E as (w1 & k & E1 & E2).
  - discriminate E2.
  - exists lines. split; [reflexivity|].
    destruct (Z.eqb_spec k (-1)) as [->|Hk]; [|discriminate E2].
    now apply ret_inv in E2 as [-> _].
Qed.

(** X10: documents that render well can be joined.  If two inputs render
    with success on the empty builder, the first being not empty and not
    ending with a newline, then the first, a newline and the second render
    with success to the two outputs one after the other. *)
Theorem Render_joined_documents re (input1 input2 : string)
    (out1 out2 out : Builder) :
  unterminated input1 = true ->
  Render re input1 "" = (out1, Ret tt) ->
  Render re input2 "" = (out2, Ret tt) ->
  Render re (input1 ++ String newline_char input2) out
  = (out ++ out1 ++ out2, Ret tt).
Proof.
  intros Hu E1 E2.
  apply Render_Ret_inv in E1 as (l1 & S1 & L1).
  apply Render_Ret_inv in E2 as (l2 & S2 & L2).
  unfold Render. rewrite (ScanLines_join input1 input2 Hu), S1, S2.
  cbv beta iota. unfold bind at 1. rewrite scan_loop_app.
  pose proof (appends_scan_loop re l1 0 (-1) out) as F1.
  unfold Builder in *. rewrite L1 in F1. cbn [fst snd] in F1.
  rewrite (bind_Ret _ _ _ _ _ F1).
  destruct (scan_loop_lineCount re l2 0 (0 + lines_before l1) (-1) (-1)
              "" out2 (-1) ltac:(lia) ltac:(unfold lines_before; lia)
              eq_refl L2) as (k & F2 & Hk).
  apply eq_sym, InCodeFence_false in Hk. subst k.
  pose proof (appends_scan_loop re l2 (0 + lines_before l1) (-1)
                (out ++ out1)) as F3.
  unfold Builder in *. rewrite F2 in F3. cbn [fst snd] in F3.
  rewrite F3. cbn [Z.eqb Z.opp Pos.eqb negb ret].
  now rewrite append_assoc.
Qed.

Lemma Render_joined_documents_witness :
  Render (W := Builder) NewRenderer
    (("```" ++ nl ++ "x" ++ nl ++ "```") ++ String newline_char "*b*") "<h1>"
  = ("<h1>" ++ ("<pre><code>x" ++ nl ++ "</code></pre>" ++ nl)
            ++ ("<p><strong>b</strong>" ++ nl ++ "</p>" ++ nl),
     Ret tt).
Proof.
  apply (Render_joined_documents NewRenderer
           ("```" ++ nl ++ "x" ++ nl ++ "```") "*b*").
  - reflexivity.
  - vm_compute. reflexivity.
  - vm_compute. reflexivity.
Defined.

Lemma scan_loop_parity {W} `{Writer W} re lines n k (out out' : W) k' :
  0 <= n ->
  scan_loop re lines n k out = (out', Ret k') ->
  InCodeFence k' = xorb (InCodeFence k) (Nat.odd (count_fences lines)).
Proof.
  revert n k out. induction lines as [|l lines IH]; intros n k out Hn E.
  - apply ret_inv in E as [_ ->]. cbn. now rewrite xorb_false_r.
  - cbn [scan_loop] in E. apply bind_Ret_inv in E as (w1 & j & E1 & E2).
    rewrite (IH (n + 1) j w1 ltac:(lia) E2).
    unfold count_fences. cbn [filter].
    destruct (String.eqb_spec fence l) as [<-|Hf].
    + cbn [List.length]. rewrite Nat.odd_succ, <- Nat.negb_odd.
      apply scan_step_Ret_fence in E1 as [[-> ->]|[Hk ->]];
        unfold InCodeFence.
      * destruct (Z.eqb_spec (n + 1) (-1)); [lia|].
        cbn. now destruct (Nat.odd _).
      * destruct (Z.eqb_spec k (-1)); [contradiction|].
        cbn. now destruct (Nat.odd _).
    + apply (scan_step_Ret_other re l (n + 1) k out w1 j) in E1 as ->;
        [reflexivity | congruence].
Qed.

(** X11: [Render] succeeds only when the fence lines are paired: the number
    of fence lines among the lines of a document that renders well is
    even. *)
Theorem Render_success_pairs_fences {W : Type} {HW : Writer W} re
    (input : string) (out out' : W) :
  Render re input out = (out', Ret tt) ->
  Nat.even (count_fences (fst (bufio.ScanLines input))) = true.
Proof.
  intros E. apply Render_Ret_inv in E as (lines & S & L).
  rewrite S. cbn [fst].
  apply scan_loop_parity in L; [|lia]. cbn in L.
  rewrite <- Nat.negb_odd. now rewrite <- L.
Qed.

Lemma Render_success_pairs_fences_witness :
  Nat.even
    (count_fences
       (fst (bufio.ScanLines
               ("a" ++ nl ++ "```" ++ nl ++ "b" ++ nl ++ "```"))))
  = true.
Proof.
  apply (Render_success_pairs_fences (W := Builder) NewRenderer
           ("a" ++ nl ++ "```" ++ nl ++ "b" ++ nl ++ "```") ""
           ("<p>a" ++ nl ++ "</p>" ++ nl ++ "<pre><code>b" ++ nl
                   ++ "</code></pre>" ++ nl)).
  vm_compute. reflexivity.
Defined.

(** ** What the escapers leave *)

Lemma escape_byte_markup_free (c : byte) :
  all_bytes markup_free (escape_byte c) = true.
Proof.
  unfold escape_byte, template.html_entity.
  repeat match goal with
         | |- context [Ascii.eqb c ?d] =>
           destruct (Ascii.eqb_spec c d) as [->|?]
         end; try reflexivity.
  cbn [all_bytes]. unfold markup_free. cbn [existsb].
  repeat match goal with
         | |- context [Ascii.eqb c ?d] =>
           destruct (Ascii.eqb_spec c d); [contradiction|]
         end.
  reflexivity.
Qed.

Lemma htmlReplacer_markup_free (s : string) :
  all_bytes markup_free (template.htmlReplacer s) = true.
Proof.
  induction s as [|c s IH]; [reflexivity|].
  cbn [template.htmlReplacer]. unfold template.htmlReplacement.
  repeat match goal with
         | |- context [Ascii.eqb c ?d] =>
           destruct (Ascii.eqb_spec c d) as [->|?]
         end;
    try (rewrite all_bytes_app, IH; reflexivity).
  cbn [all_bytes]. rewrite IH, andb_true_r.
  unfold markup_free. cbn [existsb].
  repeat match goal with
         | |- context [Ascii.eqb c ?d] =>
           destruct (Ascii.eqb_spec c d); [contradiction|]
         end.
  reflexivity.
Qed.

(** X12: no text or link part reaches the output with a byte that can open
    or close markup.  What [HTMLEscape] writes for any bytes, the escaped URL
    of a link and its escaped Label hold no NUL, no quote of either kind, no
    [<] and no [>]. *)
Theorem escaped_output_is_markup_free (s : string) :
  all_bytes markup_free (template.HTMLEscape (W := Builder) "" s) = true
  /\ all_bytes markup_free
       (template.attrEscaper
          (template.urlNormalizer (template.urlFilter s))) = true
  /\ all_bytes markup_free (template.htmlEscaper s) = true.
Proof.
  split; [|split].
  - change (template.HTMLEscape (W := Builder) "" s) with (html s).
    rewrite html_escaped.
    induction s as [|c s IH]; [reflexivity|].
    cbn [escaped]. now rewrite all_bytes_app, escape_byte_markup_free, IH.
  - apply htmlReplacer_markup_free.
  - apply htmlReplacer_markup_free.
Qed.

(** ** Write errors while text is emitted *)

Lemma writeEscapedRune_ascii_any {W} `{Writer W} c st (out : W) :
  is_ascii c = true -> one_byte_buffer st ->
  exists out',
    writeEscapedRune (b2z c) st out = (out', Ret (set_runeBuffer [c] st)).
Proof.
  intros Hc [b Hb]. unfold writeEscapedRune, EncodeRune.
  rewrite Hb, (encoding_ascii c Hc). cbn [store]. eexists. reflexivity.
Qed.

Lemma run_plain_any {W} `{Writer W} re s n st (out : W) :
  one_byte_buffer st ->
  lastEscape st <= -1 -> lastLink st <= -1 -> lastCode st <= -1 ->
  all_bytes plain_byte s = true ->
  exists out' st',
    run_str re n s st out = (out', Ret st') /\ same_trackers st st'.
Proof.
  revert n st out. induction s as [|c s IH]; intros n st out Hb He Hl Hk Hs.
  - exists out, st. split; [reflexivity | now apply same_trackers_refl].
  - cbn [all_bytes] in Hs. apply andb_true_iff in Hs as [Hc Hs].
    pose proof (plain_byte_ascii c Hc) as Ha.
    rewrite run_str_cons by assumption.
    destruct (writeEscapedRune_ascii_any c st out Ha Hb) as [w1 E1].
    assert (Es : step re n (b2z c) st out
                 = (w1, Ret (set_runeBuffer [c] st))).
    { plain_facts Hc. unfold step.
      destruct (Z.gtb_spec (lastEscape st) (-1)); [lia|].
      destruct (Z.gtb_spec (lastLink st) (-1)); [lia|].
      destruct (Z.gtb_spec (lastCode st) (-1)); [lia|].
      rewrite Hc0, Hc1, Hc2, Hc3. exact E1. }
    rewrite (bind_Ret _ _ _ _ _ Es).
    destruct (IH (n + 1) (set_runeBuffer [c] st) w1)
      as (out' & st' & E & S); try assumption; [now exists c|].
    exists out', st'. split; [exact E|].
    exact (same_trackers_trans _ _ _ (same_trackers_set_runeBuffer st c) S).
Qed.

(** X13: on a line of plain ASCII text [renderLine] returns success with
    every writer, a writer whose writes fail included: the text goes through
    [HTMLEscape], which drops the results of [Write]. *)
Theorem renderLine_plain_text_drops_write_errors {W : Type} {HW : Writer W}
    re (line : string) (out : W) :
  all_bytes plain_byte line = true ->
  exists out', renderLine re line out = (out', Ret tt).
Proof.
  intros Hl. rewrite renderLine_run_str.
  destruct (run_plain_any re line 0 initial out one_byte_buffer_initial)
    as (out' & st & E & (_ & Sb & Sc & Sl & _)); try (cbn; lia); [assumption|].
  exists out'. rewrite (bind_Ret _ _ _ _ _ E).
  apply finish_closed; rewrite ?Sb, ?Sc, ?Sl; cbn; lia.
Qed.

Lemma renderLine_plain_text_drops_write_errors_witness :
  exists out' : FailingWriter,
    renderLine (W := FailingWriter) NewRenderer "a < b" 0%nat = (out', Ret tt).
Proof.
  apply (renderLine_plain_text_drops_write_errors (W := FailingWriter)
           NewRenderer "a < b" 0%nat).
  reflexivity.
Defined.

Lemma renderLine_ascii_returns_witness :
  exists out',
    renderLine (W := Builder) NewRenderer "a [b *c" "" = (out', Ret tt)
    \/ exists err,
         renderLine (W := Builder) NewRenderer "a [b *c" "" = (out', Err err).
Proof.
  apply (renderLine_ascii_returns (W := Builder) NewRenderer "a [b *c" "").
  repeat constructor.
Defined.

(** ** Escapes in a line *)

Lemma is_ascii_bounds (c : byte) :
  is_ascii c = true -> 0 <= b2z c <= rune1Max.
Proof.
  unfold is_ascii, RuneSelf, rune1Max. intros Hc. apply Z.ltb_lt in Hc.
  pose proof (b2z_nonneg c). lia.
Qed.

Lemma Builder_step_escaped re n c st (out : Builder) :
  one_byte_buffer st ->
  lastEscape st > -1 -> lastLink st <= -1 -> is_ascii c = true ->
  step re n (b2z c) st out
  = (out ++ escape_byte c,
     Ret (set_lastEscape (-1) (set_runeBuffer [c] st))).
Proof.
  intros [b Hb] He Hl Hc.
  rewrite (step_escaped_outside_link re n (b2z c) st out b []
             He Hl (is_ascii_bounds c Hc) Hb).
  rewrite z2b_b2z, Builder_HTMLEscape_escaped. cbn [escaped].
  now rewrite append_nil_r.
Qed.

(** X15: in plain text a backslash is not written and the ASCII byte after
    it, control characters included, is written HTML-escaped as data: the
    line renders with success to the text before, that byte and the text
    after, all HTML-escaped, and no bold, code or link is opened. *)
Theorem renderLine_escaped_byte re (pre post : string) (c : byte)
    (out : Builder) :
  all_bytes plain_byte pre = true ->
  is_ascii c = true ->
  all_bytes plain_byte post = true ->
  renderLine re (pre ++ "\" ++ String c post) out
  = (out ++ html pre ++ html (String c "") ++ html post, Ret tt).
Proof.
  intros Hpre Hc Hpost. pose proof (len_nonneg pre) as Hn.
  rewrite renderLine_run_str, !html_escaped.
  assert (exists st,
             run_str re 0 (pre ++ "\" ++ String c post) initial out
             = (out ++ escaped pre ++ escaped (String c "") ++ escaped post,
                Ret st)
             /\ lastBold st <= -1 /\ lastCode st <= -1 /\ lastLink st <= -1)
    as (st & E & Hb & Hk & Hl).
  { destruct (run_plain re pre 0 initial out one_byte_buffer_initial)
      as (st1 & E1 & S1); try trk.
    rewrite run_str_app, (bind_Ret _ _ _ _ _ E1) by now apply plain_is_ascii.
    cbn [append]. rewrite run_str_cons by reflexivity.
    rewrite (bind_Ret _ _ _ _ _
               (step_backslash re (0 + len pre) st1 (out ++ escaped pre)
                  ltac:(trk))).
    rewrite run_str_cons by assumption.
    rewrite (bind_Ret _ _ _ _ _
               (Builder_step_escaped re (0 + len pre + 1) c
                  (set_lastEscape (0 + len pre) st1) (out ++ escaped pre)
                  ltac:(trk) ltac:(trk) ltac:(trk) Hc)).
    destruct (run_plain re post (0 + len pre + 1 + 1)
                (set_lastEscape (-1)
                   (set_runeBuffer [c] (set_lastEscape (0 + len pre) st1)))
                ((out ++ escaped pre) ++ escape_byte c))
      as (st3 & E3 & S3); try trk.
    exists st3. rewrite E3. cbn [escaped].
    rewrite !append_assoc. cbn [append].
    repeat split; try reflexivity; trk. }
  rewrite (bind_Ret _ _ _ _ _ E). now apply finish_closed.
Qed.

Lemma renderLine_escaped_byte_witness :
  renderLine (W := Builder) NewRenderer ("2 " ++ "\" ++ String "*" " 3 = 6")
    ""
  = ("" ++ html "2 " ++ html (String "*" "") ++ html " 3 = 6", Ret tt).
Proof.
  apply (renderLine_escaped_byte NewRenderer "2 " " 3 = 6" "*"%char "");
    reflexivity.
Defined.

(** X16: a backslash that ends a line is dropped without an error.  For any
    writer and any line whose runes are consumed with no escape pending at
    the end, the line with a backslash appended writes the same bytes and
    returns the same result. *)
Theorem trailing_backslash_is_dropped {W : Type} {HW : Writer W} re
    (line : string) (out out' : W) (st : locals) :
  run re (range_string line) initial out = (out', Ret st) ->
  lastEscape st <= -1 ->
  renderLine re (line ++ "\") out = renderLine re line out.
Proof. apply renderLine_trailing_backslash. Qed.

Lemma trailing_backslash_is_dropped_witness :
  renderLine (W := Builder) NewRenderer ("a*b*" ++ "\") ""
  = renderLine (W := Builder) NewRenderer "a*b*" "".
Proof.
  apply (trailing_backslash_is_dropped (W := Builder) NewRenderer "a*b*" ""
           "a<strong>b</strong>" (set_runeBuffer ["b"%char] initial)).
  - vm_compute. reflexivity.
  - simpl. lia.
Defined.
